(** * Claude Voice Commands: the multi-engine fallback coordinator and its RPC tools

    A shallow embedding of [mcp_server/speech_engines.py] and
    [mcp_server/voice_server.py].

    - Python values that cross the RPC boundary are JSON-like values [JVal];
      a dict literal is an association list in insertion order.
    - A Python exception is a [PyExc]: its class, its [str(e)] and its
      [__context__].  The classes include those that derive from
      [BaseException] but not from [Exception] ([KeyboardInterrupt],
      [SystemExit], [asyncio.CancelledError]): [except Exception] does not
      catch them.
    - Code that talks to the outside (microphone, recognition services, SDK
      imports, clock, temporary files) goes through one typed primitive,
      [ext], answered by a [Platform]: an arbitrary, stateful oracle that may
      answer any call with any exception.
    - Effects are threaded by the monad [M]: a state monad over [World] whose
      result is either a raised exception or a value.  State changes made
      before an exception is raised persist, as in Python.
    - Calls to [logger]/[logging] do not influence results and are elided. *)

From Stdlib Require Import List String Ascii Bool ZArith Lia.
From Stdlib Require Import Strings.Byte.
From Stdlib Require Import Floats.PrimFloat.
Import ListNotations.
Local Open Scope string_scope.
Local Open Scope list_scope.

Set Implicit Arguments.
Set Warnings "-register-all,-inexact-float".

(* ===================================================================== *)
(** ** Python data *)
(* ===================================================================== *)

(** A Python number: [int] or [float]. *)
Inductive Num : Type :=
| NInt (z : Z)
| NFloat (f : float).

(** JSON-like values: what a tool hands back to the RPC layer. *)
Inductive JVal : Type :=
| JNull
| JBool (b : bool)
| JNum (n : Num)
| JStr (s : string)
| JList (l : list JVal)
| JDict (d : list (string * JVal)).

Definition Payload := list (string * JVal).

(** [d.get(key)] on a dict literal. *)
Fixpoint jlookup (key : string) (d : Payload) : option JVal :=
  match d with
  | [] => None
  | (k, v) :: rest => if String.eqb k key then Some v else jlookup key rest
  end.

Definition option_to_jval {A : Type} (f : A -> JVal) (o : option A) : JVal :=
  match o with
  | Some a => f a
  | None => JNull
  end.

(** Exception classes that the code names or that its collaborators raise.
    The last three derive from [BaseException] only. *)
Inductive ExcClass : Type :=
| Exception_
| ValueError
| ImportError
| AttributeError
| NameError
| NotImplementedError
| OSError
| TypeError
| KeyError
| WaitTimeoutError
| UnknownValueError
| RequestError
| KeyboardInterrupt
| SystemExit
| CancelledError.

(** [issubclass(c, Exception)] *)
Definition is_exception (c : ExcClass) : bool :=
  match c with
  | KeyboardInterrupt | SystemExit | CancelledError => false
  | _ => true
  end.

(** An exception object: class, [str(e)], and [__context__] (the exception
    that was being handled when this one was raised). *)
Inductive PyExc : Type :=
| mkExc (cls : ExcClass) (msg : string) (context : option PyExc).

Definition exc_class (e : PyExc) : ExcClass := let '(mkExc c _ _) := e in c.
Definition exc_str (e : PyExc) : string := let '(mkExc _ m _) := e in m.
Definition exc_context (e : PyExc) : option PyExc := let '(mkExc _ _ c) := e in c.

(** [raise Exception(msg)] outside any handler. *)
Definition Exception (msg : string) : PyExc := mkExc Exception_ msg None.
(** [raise Exception(msg)] inside [except ... as e]. *)
Definition Exception_during (e : PyExc) (msg : string) : PyExc :=
  mkExc Exception_ msg (Some e).

(* ===================================================================== *)
(** ** speech_engines.py: data model *)
(* ===================================================================== *)

(** [class RecognitionBackend(Enum)] *)
Inductive RecognitionBackend : Type :=
| ELEVENLABS
| GOOGLE
| WHISPER
| OPENAI_REALTIME.

(** [e.value] *)
Definition value (b : RecognitionBackend) : string :=
  match b with
  | ELEVENLABS => "elevenlabs"
  | GOOGLE => "google"
  | WHISPER => "whisper"
  | OPENAI_REALTIME => "openai"
  end.

(** Iterating the enumeration class: definition order. *)
Definition all_backends : list RecognitionBackend :=
  [ELEVENLABS; GOOGLE; WHISPER; OPENAI_REALTIME].

Definition backend_eqb (a b : RecognitionBackend) : bool :=
  match a, b with
  | ELEVENLABS, ELEVENLABS | GOOGLE, GOOGLE
  | WHISPER, WHISPER | OPENAI_REALTIME, OPENAI_REALTIME => true
  | _, _ => false
  end.

(** [RecognitionBackend(s)]: lookup by value; [None] stands for the
    [ValueError] the enumeration raises on an unknown value. *)
Definition backend_of_value (s : string) : option RecognitionBackend :=
  find (fun b => String.eqb (value b) s) all_backends.

(** [@dataclass RecognitionResult] *)
Record RecognitionResult : Type := mkResult {
  text : string;
  confidence : float;
  backend : RecognitionBackend;
  processing_time : float;
  metadata : Payload
}.

(** [sr.Recognizer]: the settings the code touches. *)
Record Recognizer : Type := mkRecognizer {
  energy_threshold : Num;
  pause_threshold : Num;
  dynamic_energy_threshold : bool
}.

(** [sr.Recognizer()] with the library's defaults. *)
Definition sr_Recognizer : Recognizer :=
  mkRecognizer (NInt 300) (NFloat 0.8) true.

(** [sr.Microphone] *)
Record Microphone : Type := mkMicrophone {
  device_index : option Z
}.

(** [sr.AudioData] *)
Record AudioData : Type := mkAudioData {
  frame_data : list byte;
  sample_rate : Z;
  sample_width : Z
}.

(** What [recognize] may be handed: an [sr.AudioData] (it has
    [get_wav_data]) or already-encoded bytes. *)
Inductive AudioInput : Type :=
| OfAudioData (a : AudioData)
| OfBytes (b : list byte).

Inductive EngineClass : Type :=
| ElevenLabsEngine
| GoogleEngine
| WhisperEngine.

(** [eng.__class__.__name__] *)
Definition class_name (c : EngineClass) : string :=
  match c with
  | ElevenLabsEngine => "ElevenLabsEngine"
  | GoogleEngine => "GoogleEngine"
  | WhisperEngine => "WhisperEngine"
  end.

(** An engine instance ([SpeechEngine] and its three subclasses). *)
Record SpeechEngine : Type := mkEngine {
  engine_class : EngineClass;
  config : list (string * string);
  recognizer : Recognizer;
  microphone : Microphone;
  available : bool;
  model_name : string
}.

(** A [dict] keyed by backend, in insertion order. *)
Definition EngineDict := list (RecognitionBackend * SpeechEngine).

Fixpoint dict_get {V : Type} (k : RecognitionBackend)
    (d : list (RecognitionBackend * V)) : option V :=
  match d with
  | [] => None
  | (k', v) :: rest => if backend_eqb k' k then Some v else dict_get k rest
  end.

(** [k in d] *)
Definition dict_mem {V : Type} (k : RecognitionBackend)
    (d : list (RecognitionBackend * V)) : bool :=
  match dict_get k d with Some _ => true | None => false end.

(** [d[k] = v]: an existing key keeps its position, a new one goes last. *)
Fixpoint dict_set {V : Type} (k : RecognitionBackend) (v : V)
    (d : list (RecognitionBackend * V)) : list (RecognitionBackend * V) :=
  match d with
  | [] => [(k, v)]
  | (k', v') :: rest =>
      if backend_eqb k' k then (k, v) :: rest else (k', v') :: dict_set k v rest
  end.

(** [d.keys()] *)
Definition keys {V : Type} (d : list (RecognitionBackend * V)) : list RecognitionBackend :=
  map fst d.

(** [class MultiEngine] *)
Record MultiEngine : Type := mkMultiEngine {
  engines : EngineDict;
  primary : option RecognitionBackend;
  fallback : option RecognitionBackend
}.

(* ===================================================================== *)
(** ** The outside world *)
(* ===================================================================== *)

(** Calls into collaborators, indexed by the type of their answer. *)
Inductive ExtOp : Type -> Type :=
| SrMicrophone (index : option Z) : ExtOp Microphone
| MicEnter (m : Microphone) : ExtOp unit
| MicExit (m : Microphone) : ExtOp unit
| AdjustForAmbientNoise (m : Microphone) (duration : Num) : ExtOp Num
| Listen (m : Microphone) (timeout : Num) (phrase_time_limit : Num) : ExtOp AudioData
| ListMicrophoneNames : ExtOp (list string)
| RecognizeGoogle (a : AudioInput) : ExtOp string
| RecognizeWhisper (a : AudioInput) (model : string) : ExtOp string
| GetWavData (a : AudioData) : ExtOp (list byte)
| TempfileWrite (b : list byte) : ExtOp string
| OsUnlink (path : string) : ExtOp unit
| TimeTime : ExtOp float
| DatetimeNowIsoformat : ExtOp string
| ImportElevenLabs (api_key : option string) : ExtOp unit
| ImportWhisper : ExtOp unit
| WhisperLoadModel (name : string) : ExtOp unit.

(** The platform: the oracle answering [ExtOp] calls from its own state,
    and the Python built-ins the code applies to strings. *)
Record Platform : Type := mkPlatform {
  Ext : Type;
  ext_call : forall A : Type, ExtOp A -> Ext -> (PyExc + A) * Ext;
  str_lower : string -> string;
  str_strip : string -> string;
  str_isdigit : string -> bool;
  py_int : string -> PyExc + Z;
  py_float : string -> PyExc + float;
  format_1f : Num -> string
}.

Section Effects.

Variable P : Platform.

(** Everything a request can read or change. *)
Record World : Type := mkWorld {
  environ : string -> option string;      (* os.environ *)
  SPEECH_COMPONENTS_AVAILABLE : bool;     (* module constant of voice_server *)
  _speech_engine : option MultiEngine;    (* module global of voice_server *)
  recognize_calls : list RecognitionBackend; (* engines[k].recognize awaited, oldest first *)
  ext_state : Ext P
}.

(* ===================================================================== *)
(** ** The effect monad *)
(* ===================================================================== *)

Definition M (A : Type) : Type := World -> (PyExc + A) * World.

Definition ret {A : Type} (a : A) : M A := fun w => (inr a, w).

Definition raise {A : Type} (e : PyExc) : M A := fun w => (inl e, w).

Definition bind {A B : Type} (m : M A) (k : A -> M B) : M B :=
  fun w =>
    match m w with
    | (inr a, w') => k a w'
    | (inl e, w') => (inl e, w')
    end.

(** [try: m  except ...: ...] with the except clauses read as one function
    of the exception: [clauses e] is what matching [e] against the clauses
    in turn does, the body of the first that matches or, where none does,
    [raise e]. *)
Definition try_clauses {A : Type} (m : M A) (clauses : PyExc -> M A) : M A :=
  fun w =>
    match m w with
    | (inr a, w') => (inr a, w')
    | (inl e, w') => clauses e w'
    end.

(** [try: m  except Exception as e: handler e]: an exception whose class
    does not derive from [Exception] matches no clause and propagates. *)
Definition try_except {A : Type} (m : M A) (handler : PyExc -> M A) : M A :=
  try_clauses m (fun e => if is_exception (exc_class e) then handler e else raise e).

(** [try: m  finally: cleanup] as [with] uses it: the cleanup runs on both
    paths, and an exception of the cleanup replaces the outcome. *)
Definition finally_ {A : Type} (m : M A) (cleanup : M unit) : M A :=
  fun w =>
    match m w with
    | (r, w') =>
        match cleanup w' with
        | (inr _, w'') => (r, w'')
        | (inl e, w'') => (inl e, w'')
        end
    end.

Definition lift {A : Type} (r : PyExc + A) : M A := fun w => (r, w).

Definition ext {A : Type} (op : ExtOp A) : M A :=
  fun w =>
    let '(r, s) := ext_call P op (ext_state w) in
    (r, mkWorld (environ w) (SPEECH_COMPONENTS_AVAILABLE w) (_speech_engine w)
                (recognize_calls w) s).

(** [os.getenv(name)] *)
Definition getenv (name : string) : M (option string) :=
  fun w => (inr (environ w name), w).

Definition get_global : M (option MultiEngine) :=
  fun w => (inr (_speech_engine w), w).

Definition set_global (me : option MultiEngine) : M unit :=
  fun w => (inr tt, mkWorld (environ w) (SPEECH_COMPONENTS_AVAILABLE w) me
                            (recognize_calls w) (ext_state w)).

Definition components_available : M bool :=
  fun w => (inr (SPEECH_COMPONENTS_AVAILABLE w), w).

Definition note_recognize (k : RecognitionBackend) : M unit :=
  fun w => (inr tt, mkWorld (environ w) (SPEECH_COMPONENTS_AVAILABLE w) (_speech_engine w)
                            (recognize_calls w ++ [k]) (ext_state w)).

End Effects.

Arguments ret {P A} a.
Arguments raise {P A} e.
Arguments bind {P A B} m k.
Arguments try_clauses {P A} m clauses.
Arguments try_except {P A} m handler.
Arguments finally_ {P A} m cleanup.
Arguments lift {P A} r.
Arguments ext {P A} op.
Arguments getenv {P} name.
Arguments get_global {P}.
Arguments set_global {P} me.
Arguments components_available {P}.
Arguments note_recognize {P} k.

Declare Scope py_scope.
Delimit Scope py_scope with py.
Notation "x <- m ;; k" := (bind m (fun x => k))
  (at level 61, m at next level, right associativity) : py_scope.
Notation "m ;;; k" := (bind m (fun _ => k))
  (at level 61, right associativity) : py_scope.
Local Open Scope py_scope.

(* ===================================================================== *)
(** ** speech_engines.py: the engines *)
(* ===================================================================== *)

Section Engines.

Variable P : Platform.
Local Abbreviation M := (M P).

(** [response.get(key, default)] read as a string / as a float. *)
Definition get_str (key : string) (default : string) (d : Payload) : string :=
  match jlookup key d with
  | Some (JStr s) => s
  | _ => default
  end.

Definition get_float (key : string) (default : float) (d : Payload) : float :=
  match jlookup key d with
  | Some (JNum (NFloat f)) => f
  | _ => default
  end.

(** [ElevenLabsEngine._convert_audio_format] *)
Definition _convert_audio_format (audio_data : AudioInput) : M (list byte) :=
  match audio_data with
  | OfAudioData a => ext (GetWavData a)
  | OfBytes b => ret b
  end.

(** [ElevenLabsEngine._elevenlabs_stt]: the placeholder response, between
    writing and removing a temporary file; the handler logs and re-raises. *)
Definition _elevenlabs_stt (audio_bytes : list byte) : M Payload :=
  try_except
    (temp_file_path <- ext (TempfileWrite audio_bytes) ;;
     let response :=
       [("transcript", JStr "ElevenLabs transcription placeholder");
        ("confidence", JNum (NFloat 0.95));
        ("duration", JNum (NFloat 0.0))] in
     ext (OsUnlink temp_file_path) ;;;
     ret response)
    (fun e => raise e).

(** [ElevenLabsEngine.recognize] *)
Definition ElevenLabsEngine_recognize (self : SpeechEngine) (audio_data : AudioInput)
  : M RecognitionResult :=
  if negb (available self) then raise (Exception "ElevenLabs not available")
  else
    start_time <- ext TimeTime ;;
    try_except
      (audio_bytes <- _convert_audio_format audio_data ;;
       response <- _elevenlabs_stt audio_bytes ;;
       now <- ext TimeTime ;;
       let processing_time := PrimFloat.sub now start_time in
       ret (mkResult (get_str "transcript" "" response)
                     (get_float "confidence" 0.95 response)
                     ELEVENLABS processing_time response))
      (fun e => raise e).

(** [GoogleEngine.recognize]: the two library errors are re-raised as plain
    [Exception]s from inside their handlers; anything else propagates. *)
Definition GoogleEngine_recognize (self : SpeechEngine) (audio_data : AudioInput)
  : M RecognitionResult :=
  start_time <- ext TimeTime ;;
  try_clauses
    (text <- ext (RecognizeGoogle audio_data) ;;
     now <- ext TimeTime ;;
     let processing_time := PrimFloat.sub now start_time in
     ret (mkResult text 0.90 GOOGLE processing_time
                   [("service", JStr "google_speech_recognition")]))
    (fun e =>
       match exc_class e with
       | UnknownValueError => raise (Exception_during e "Could not understand audio")
       | RequestError => raise (Exception_during e ("Google API error: " ++ exc_str e))
       | _ => raise e
       end).

(** [WhisperEngine.recognize] *)
Definition WhisperEngine_recognize (self : SpeechEngine) (audio_data : AudioInput)
  : M RecognitionResult :=
  if negb (available self) then raise (Exception "Whisper not available")
  else
    start_time <- ext TimeTime ;;
    try_except
      (text <- ext (RecognizeWhisper audio_data (model_name self)) ;;
       now <- ext TimeTime ;;
       let processing_time := PrimFloat.sub now start_time in
       ret (mkResult text 0.85 WHISPER processing_time
                     [("model", JStr (model_name self))]))
      (fun e => raise e).

(** [engine.recognize(audio_data)], dispatched on the instance's class. *)
Definition recognize (self : SpeechEngine) (audio_data : AudioInput) : M RecognitionResult :=
  match engine_class self with
  | ElevenLabsEngine => ElevenLabsEngine_recognize self audio_data
  | GoogleEngine => GoogleEngine_recognize self audio_data
  | WhisperEngine => WhisperEngine_recognize self audio_data
  end.

(** [await engines[k].recognize(audio_data)]: the call is noted under the
    key the engine was looked up by, then made. *)
Definition await_recognize (k : RecognitionBackend) (engine : SpeechEngine)
    (audio_data : AudioInput) : M RecognitionResult :=
  note_recognize k ;;; recognize engine audio_data.

(* ===================================================================== *)
(** ** MultiEngine.recognize_with_fallback *)
(* ===================================================================== *)

(** [x in [a, b]] for an enum member [x] and possibly-[None] [a], [b]. *)
Definition in_pair (x : RecognitionBackend) (a b : option RecognitionBackend) : bool :=
  match a with Some a' => backend_eqb x a' | None => false end
  || match b with Some b' => backend_eqb x b' | None => false end.

(** One guarded attempt.  [Some r] means the function has returned [r];
    [None] means control falls through to the statement that follows.
<<
    try:
        result = await engine.recognize(audio_data)
        return result
    except Exception as e:
        logger.warning(...)
>> *)
Definition attempt (k : RecognitionBackend) (engine : SpeechEngine)
    (audio_data : AudioInput) : M (option RecognitionResult) :=
  try_except
    (result <- await_recognize k engine audio_data ;; ret (Some result))
    (fun _ => ret None).

(** [if self.X and self.X in self.engines: <attempt self.engines[self.X]>] *)
Definition attempt_configured (which : option RecognitionBackend) (self : MultiEngine)
    (audio_data : AudioInput) : M (option RecognitionResult) :=
  match which with
  | Some k =>
      match dict_get k (engines self) with
      | Some engine => attempt k engine audio_data
      | None => ret None
      end
  | None => ret None
  end.

(** [for backend, engine in self.engines.items(): if backend not in
    [self.primary, self.fallback]: <attempt engine>] *)
Fixpoint attempt_remaining (self : MultiEngine) (items : EngineDict)
    (audio_data : AudioInput) : M (option RecognitionResult) :=
  match items with
  | [] => ret None
  | (backend, engine) :: rest =>
      if negb (in_pair backend (primary self) (fallback self)) then
        r <- attempt backend engine audio_data ;;
        match r with
        | Some result => ret (Some result)
        | None => attempt_remaining self rest audio_data
        end
      else attempt_remaining self rest audio_data
  end.

Definition all_engines_failed : PyExc := Exception "All recognition engines failed".

Definition recognize_with_fallback (self : MultiEngine) (audio_data : AudioInput)
  : M RecognitionResult :=
  (* Try primary engine first *)
  r <- attempt_configured (primary self) self audio_data ;;
  match r with
  | Some result => ret result
  | None =>
      (* Try fallback engine *)
      r <- attempt_configured (fallback self) self audio_data ;;
      match r with
      | Some result => ret result
      | None =>
          (* Try any remaining engines *)
          r <- attempt_remaining self (engines self) audio_data ;;
          match r with
          | Some result => ret result
          | None => raise all_engines_failed
          end
      end
  end.

(* ===================================================================== *)
(** ** Engine construction *)
(* ===================================================================== *)

Definition with_available (self : SpeechEngine) (b : bool) : SpeechEngine :=
  mkEngine (engine_class self) (config self) (recognizer self) (microphone self)
           b (model_name self).

Definition with_model_name (self : SpeechEngine) (name : string) : SpeechEngine :=
  mkEngine (engine_class self) (config self) (recognizer self) (microphone self)
           (available self) name.

Definition with_energy_threshold (self : SpeechEngine) (th : Num) : SpeechEngine :=
  mkEngine (engine_class self) (config self)
           (mkRecognizer th (pause_threshold (recognizer self))
                         (dynamic_energy_threshold (recognizer self)))
           (microphone self) (available self) (model_name self).

(** [SpeechEngine.__init__]: [int(...)] and [float(...)] of the environment
    may raise; so may opening the default microphone.  [available] and
    [model_name] are left for the subclass to assign. *)
Definition SpeechEngine_init (cls : EngineClass) (config : option (list (string * string)))
  : M SpeechEngine :=
  let recognizer := sr_Recognizer in
  microphone <- ext (SrMicrophone None) ;;
  v <- getenv "VOICE_ENERGY_THRESHOLD" ;;
  energy <- match v with
            | Some s => lift (py_int P s)
            | None => ret 4000%Z
            end ;;
  v <- getenv "VOICE_PAUSE_THRESHOLD" ;;
  pause <- match v with
           | Some s => lift (py_float P s)
           | None => ret 0.8%float
           end ;;
  ret (mkEngine cls (match config with Some c => c | None => [] end)
                (mkRecognizer (NInt energy) (NFloat pause) true)
                microphone false "").

(** [ElevenLabsEngine.__init__]: [except ImportError] and [except Exception]
    do the same, so any failure of the SDK leaves the engine unavailable. *)
Definition ElevenLabsEngine_init (config : option (list (string * string)))
  : M SpeechEngine :=
  self <- SpeechEngine_init ElevenLabsEngine config ;;
  try_except
    (api_key <- getenv "ELEVENLABS_API_KEY" ;;
     ext (ImportElevenLabs api_key) ;;;
     ret (with_available self true))
    (fun _ => ret (with_available self false)).

(** [GoogleEngine.__init__] *)
Definition GoogleEngine_init (config : option (list (string * string)))
  : M SpeechEngine :=
  self <- SpeechEngine_init GoogleEngine config ;;
  ret (with_available self true).

(** [try: m  except ImportError: h]; other exceptions propagate. *)
Definition except_ImportError {A : Type} (m : M A) (h : M A) : M A :=
  try_clauses m
    (fun e => match exc_class e with
              | ImportError => h
              | _ => raise e
              end).

Fixpoint config_get (key default : string) (c : list (string * string)) : string :=
  match c with
  | [] => default
  | (k, v) :: rest => if String.eqb k key then v else config_get key default rest
  end.

(** [WhisperEngine.__init__].  The body reads [config.get(...)] from the
    ARGUMENT, which is [None] unless the caller passed a dict.  The single
    [try] is split at the assignment of [model_name], so that the handler
    sees the attributes as they stand when [ImportError] is raised. *)
Definition WhisperEngine_init (config : option (list (string * string)))
  : M SpeechEngine :=
  self <- SpeechEngine_init WhisperEngine config ;;
  except_ImportError
    (ext ImportWhisper ;;;
     name <- match config with
             | Some c => ret (config_get "model_size" "base" c)
             | None => raise (mkExc AttributeError
                                "'NoneType' object has no attribute 'get'" None)
             end ;;
     let self := with_model_name self name in
     except_ImportError
       (ext (WhisperLoadModel name) ;;;
        ret (with_available self true))
       (ret (with_available self false)))
    (ret (with_available self false)).

(** [x if x in [e.value for e in RecognitionBackend] else None], where
    [x] is built by [RecognitionBackend(name)]. *)
Definition backend_if_member (name : string) : M (option RecognitionBackend) :=
  if existsb (String.eqb name) (map value all_backends) then
    match backend_of_value name with
    | Some b => ret (Some b)
    | None => raise (mkExc ValueError
                       ("'" ++ name ++ "' is not a valid RecognitionBackend") None)
    end
  else ret None.

(** Truthiness of [os.getenv(...)]. *)
Definition truthy (o : option string) : bool :=
  match o with
  | Some s => negb (String.eqb s "")
  | None => false
  end.

Definition getenv_default (name default : string) : M string :=
  v <- getenv name ;;
  ret (match v with Some s => s | None => default end).

(** The first half of [MultiEngine.__init__]: probe, register, prune. *)
Definition build_engines : M EngineDict :=
  let engines : EngineDict := [] in
  key <- getenv "ELEVENLABS_API_KEY" ;;
  engines <- (if truthy key
              then e <- ElevenLabsEngine_init None ;; ret (dict_set ELEVENLABS e engines)
              else ret engines) ;;
  e <- GoogleEngine_init None ;;
  let engines := dict_set GOOGLE e engines in
  e <- WhisperEngine_init None ;;
  let engines := dict_set WHISPER e engines in
  (* Remove unavailable engines *)
  ret (filter (fun kv => available (snd kv)) engines).

(** [MultiEngine.__init__] *)
Definition MultiEngine_init : M MultiEngine :=
  engines <- build_engines ;;
  raw_primary <- getenv_default "VOICE_BACKEND" "elevenlabs" ;;
  let primary_backend := str_lower P raw_primary in
  raw_fallback <- getenv_default "VOICE_FALLBACK" "google" ;;
  let fallback_backend := str_lower P raw_fallback in
  primary <- backend_if_member primary_backend ;;
  fallback <- backend_if_member fallback_backend ;;
  ret (mkMultiEngine engines primary fallback).

(* ===================================================================== *)
(** ** MultiEngine: microphone helpers *)
(* ===================================================================== *)

(** [with microphone as source: body] *)
Definition with_microphone {A : Type} (microphone : Microphone) (body : M A) : M A :=
  ext (MicEnter microphone) ;;;
  finally_ body (ext (MicExit microphone)).

(** [MultiEngine.get_microphone] *)
Definition get_microphone (self : MultiEngine) : M Microphone :=
  mic_index <- getenv "VOICE_MIC_INDEX" ;;
  match mic_index with
  | Some s =>
      if truthy mic_index && str_isdigit P s
      then i <- lift (py_int P s) ;; ext (SrMicrophone (Some i))
      else ext (SrMicrophone None)
  | None => ext (SrMicrophone None)
  end.

(** The assignment [self.recognizer.energy_threshold = th] that
    [adjust_for_ambient_noise] makes on the first engine of the module's
    singleton, the only [MultiEngine] the server ever calibrates. *)
Definition store_first_threshold (th : Num) : M unit :=
  g <- get_global ;;
  match g with
  | Some me =>
      match engines me with
      | (k, first_engine) :: rest =>
          set_global (Some (mkMultiEngine ((k, with_energy_threshold first_engine th) :: rest)
                                          (primary me) (fallback me)))
      | [] => ret tt
      end
  | None => ret tt
  end.

(** [MultiEngine.calibrate_microphone], inlining
    [SpeechEngine.calibrate_microphone] of the first engine. *)
Definition calibrate_microphone (self : MultiEngine) (duration : Num) : M unit :=
  match engines self with
  | (_, first_engine) :: _ =>
      with_microphone (microphone first_engine)
        (th <- ext (AdjustForAmbientNoise (microphone first_engine) duration) ;;
         store_first_threshold th)
  | [] => ret tt
  end.

(** [index == device_index] for an [int] and an [int] or [None]. *)
Definition index_is (index : Z) (d : option Z) : bool :=
  match d with
  | Some i => Z.eqb index i
  | None => false
  end.

Fixpoint enumerate_microphones (index : Z) (names : list string) : M (list Payload) :=
  match names with
  | [] => ret []
  | name :: rest =>
      m <- ext (SrMicrophone None) ;;
      let entry := [("index", JNum (NInt index));
                    ("name", JStr name);
                    ("default", JBool (index_is index (device_index m)))] in
      more <- enumerate_microphones (index + 1) rest ;;
      ret (entry :: more)
  end.

(** [MultiEngine.list_available_microphones] *)
Definition list_available_microphones (self : MultiEngine) : M (list Payload) :=
  names <- ext ListMicrophoneNames ;;
  enumerate_microphones 0 names.

(** [MultiEngine.test_microphone] *)
Definition MultiEngine_test_microphone (self : MultiEngine) (duration : Num) : M Payload :=
  try_except
    (microphone <- get_microphone self ;;
     let recognizer := sr_Recognizer in
     with_microphone microphone
       (energy_threshold <- ext (AdjustForAmbientNoise microphone (NInt 1)) ;;
        audio <- ext (Listen microphone (NInt 2) duration) ;;
        ret [("success", JBool true);
             ("microphone_index",
                option_to_jval (fun i => JNum (NInt i)) (device_index microphone));
             ("energy_threshold", JNum energy_threshold);
             ("audio_captured", JBool true);
             ("audio_duration", JNum duration)]))
    (fun e =>
       ret [("success", JBool false);
            ("error", JStr (exc_str e));
            ("microphone_index", JStr "unknown")]).

End Engines.

Arguments build_engines {P}.
Arguments MultiEngine_init {P}.

(* ===================================================================== *)
(** ** voice_server.py: the RPC tools *)
(* ===================================================================== *)

Section Tools.

Variable P : Platform.
Local Abbreviation M := (M P).

(** Evaluating the name [sr] in [voice_server]: it is bound by the last
    import of the guarded block that sets [SPEECH_COMPONENTS_AVAILABLE], so
    it is unbound exactly when that constant is [False]. *)
Definition sr_name : M unit :=
  ok <- components_available ;;
  if ok then ret tt else raise (mkExc NameError "name 'sr' is not defined" None).

(** [get_speech_engine] *)
Definition get_speech_engine : M MultiEngine :=
  g <- get_global ;;
  match g with
  | Some engine => ret engine
  | None =>
      ok <- components_available ;;
      if negb ok then raise (Exception "Speech components not available")
      else
        engine <- MultiEngine_init ;;
        set_global (Some engine) ;;;
        ret engine
  end.

(** [ping] *)
Definition ping (payload : JVal) : M Payload :=
  ret [("ok", JBool true); ("echo", payload); ("server", JStr "Claude Voice Commands")].

(** [test_microphone] *)
Definition test_microphone_body (duration : Num) : M Payload :=
  engine <- get_speech_engine ;;
  result <- MultiEngine_test_microphone engine duration ;;
  ret result.

Definition test_microphone_failed (e : PyExc) : Payload :=
  [("success", JBool false);
   ("error", JStr ("Microphone test failed: " ++ exc_str e));
   ("microphone_index", JStr "unknown")].

Definition test_microphone (duration : Num) : M Payload :=
  try_except (test_microphone_body duration)
             (fun e => ret (test_microphone_failed e)).

(** [repr] of a list of enum values: ['a', 'b']. *)
Fixpoint repr_items (l : list string) : string :=
  match l with
  | [] => ""
  | [x] => "'" ++ x ++ "'"
  | x :: rest => "'" ++ x ++ "', " ++ repr_items rest
  end.

Definition repr_list (l : list string) : string := "[" ++ repr_items l ++ "]".

(** The capture phase of [transcribe_once]. *)
Definition capture_audio (engine : MultiEngine) (duration : Num) : M AudioData :=
  sr_name ;;;
  let recognizer := sr_Recognizer in
  microphone <- get_microphone engine ;;
  with_microphone microphone
    (ext (AdjustForAmbientNoise microphone (NFloat 0.5)) ;;;
     ext (Listen microphone duration duration)).

(** The [if backend: ... else: ...] of [transcribe_once]. *)
Definition transcribe (engine : MultiEngine) (backend : option string) (audio : AudioData)
  : M RecognitionResult :=
  match backend with
  | Some name =>
      if truthy backend then
        try_clauses
          (match backend_of_value (str_lower P name) with
           | Some backend_enum =>
               match dict_get backend_enum (engines engine) with
               | Some eng => await_recognize backend_enum eng (OfAudioData audio)
               | None => raise (Exception ("Backend '" ++ name ++ "' not available"))
               end
           | None => raise (mkExc ValueError
                              ("'" ++ str_lower P name ++ "' is not a valid RecognitionBackend")
                              None)
           end)
          (fun e =>
             match exc_class e with
             | ValueError =>
                 raise (Exception_during e
                          ("Invalid backend: " ++ name ++ ". Available: "
                           ++ repr_list (map value (keys (engines engine)))))
             | _ => raise e
             end)
      else recognize_with_fallback engine (OfAudioData audio)
  | None => recognize_with_fallback engine (OfAudioData audio)
  end.

Definition transcribe_once_body (duration : Num) (backend_arg : option string) : M Payload :=
  engine <- get_speech_engine ;;
  audio <- capture_audio engine duration ;;
  result <- transcribe engine backend_arg audio ;;
  timestamp <- ext DatetimeNowIsoformat ;;
  ret [("success", JBool true);
       ("text", JStr (text result));
       ("backend", JStr (value (backend result)));
       ("confidence", JNum (NFloat (confidence result)));
       ("processing_time", JNum (NFloat (processing_time result)));
       ("timestamp", JStr timestamp)].

Definition transcribe_once_timeout : Payload :=
  [("success", JBool false);
   ("error", JStr "No speech detected within timeout period");
   ("text", JStr "");
   ("timeout", JBool true)].

Definition transcribe_once_failed (e : PyExc) : Payload :=
  [("success", JBool false);
   ("error", JStr ("Transcription failed: " ++ exc_str e));
   ("text", JStr "")].

(** The two except clauses of [transcribe_once].  Matching the first
    evaluates [sr.WaitTimeoutError]; when [sr] is unbound that raises
    [NameError] from within the handling, and no later clause applies.  The
    second is [except Exception]; what matches neither propagates. *)
Definition transcribe_once_handlers (e : PyExc) : M Payload :=
  ok <- components_available ;;
  if negb ok then raise (mkExc NameError "name 'sr' is not defined" (Some e))
  else
    match exc_class e with
    | WaitTimeoutError => ret transcribe_once_timeout
    | c => if is_exception c then ret (transcribe_once_failed e) else raise e
    end.

(** [transcribe_once] *)
Definition transcribe_once (duration : Num) (backend : option string) : M Payload :=
  try_clauses (transcribe_once_body duration backend) transcribe_once_handlers.

(** [calibrate_audio] *)
Definition calibrate_audio_body (duration : Num) : M Payload :=
  engine <- get_speech_engine ;;
  calibrate_microphone engine duration ;;;
  sr_name ;;;
  let recognizer := sr_Recognizer in
  microphone <- get_microphone engine ;;
  energy_threshold <-
    with_microphone microphone (ext (AdjustForAmbientNoise microphone (NFloat 0.1))) ;;
  ret [("success", JBool true);
       ("energy_threshold", JNum energy_threshold);
       ("duration", JNum duration);
       ("message", JStr ("Microphone calibrated successfully (threshold: "
                         ++ format_1f P energy_threshold ++ ")"))].

Definition calibrate_audio_failed (e : PyExc) : Payload :=
  [("success", JBool false);
   ("error", JStr ("Calibration failed: " ++ exc_str e))].

Definition calibrate_audio (duration : Num) : M Payload :=
  try_except (calibrate_audio_body duration)
             (fun e => ret (calibrate_audio_failed e)).

(** [for device in devices: if device.get('default'): default_device =
    device['index']; break] *)
Fixpoint find_default (devices : list Payload) : M JVal :=
  match devices with
  | [] => ret JNull
  | device :: rest =>
      match jlookup "default" device with
      | Some (JBool true) =>
          match jlookup "index" device with
          | Some i => ret i
          | None => raise (mkExc KeyError "'index'" None)
          end
      | _ => find_default rest
      end
  end.

(** [list_audio_devices] *)
Definition list_audio_devices_body : M Payload :=
  engine <- get_speech_engine ;;
  devices <- list_available_microphones engine ;;
  default_device <- find_default devices ;;
  ret [("devices", JList (map JDict devices));
       ("default_device", default_device);
       ("total_count", JNum (NInt (Z.of_nat (List.length devices))))].

Definition list_audio_devices_failed (e : PyExc) : Payload :=
  [("error", JStr ("Failed to list audio devices: " ++ exc_str e));
   ("devices", JList []);
   ("total_count", JNum (NInt 0))].

Definition list_audio_devices : M Payload :=
  try_except list_audio_devices_body
             (fun e => ret (list_audio_devices_failed e)).

(** [d[key] = v] on a string-keyed dict. *)
Fixpoint payload_set (key : string) (v : JVal) (d : Payload) : Payload :=
  match d with
  | [] => [(key, v)]
  | (k, v') :: rest =>
      if String.eqb k key then (key, v) :: rest else (k, v') :: payload_set key v rest
  end.

(** [for backend, eng in engine.engines.items(): engine_details[backend.value] = {...}] *)
Definition engine_details_of (items : EngineDict) : Payload :=
  fold_left
    (fun engine_details kv =>
       payload_set (value (fst kv))
                   (JDict [("available", JBool (available (snd kv)));
                           ("type", JStr (class_name (engine_class (snd kv))))])
                   engine_details)
    items [].

(** [get_engine_status] *)
Definition get_engine_status_body : M Payload :=
  engine <- get_speech_engine ;;
  elevenlabs_key <- getenv "ELEVENLABS_API_KEY" ;;
  let elevenlabs_configured :=
    match elevenlabs_key with
    | Some s => truthy elevenlabs_key && negb (String.eqb (str_strip P s) "")
    | None => false
    end in
  let engine_details := engine_details_of (engines engine) in
  ret [("available_engines", JList (map (fun e => JStr (value e)) (keys (engines engine))));
       ("primary_engine", option_to_jval (fun b => JStr (value b)) (primary engine));
       ("fallback_engine", option_to_jval (fun b => JStr (value b)) (fallback engine));
       ("elevenlabs_api_configured", JBool elevenlabs_configured);
       ("engine_details", JDict engine_details);
       ("total_engines", JNum (NInt (Z.of_nat (List.length (engines engine)))))].

Definition get_engine_status_failed (e : PyExc) : Payload :=
  [("error", JStr ("Failed to get engine status: " ++ exc_str e));
   ("available_engines", JList []);
   ("total_engines", JNum (NInt 0))].

Definition get_engine_status : M Payload :=
  try_except get_engine_status_body
             (fun e => ret (get_engine_status_failed e)).

(** A request as the RPC layer dispatches it. *)
Inductive ToolCall : Type :=
| Ping (payload : JVal)
| TestMicrophone (duration : Num)
| TranscribeOnce (duration : Num) (backend : option string)
| CalibrateAudio (duration : Num)
| ListAudioDevices
| GetEngineStatus.

Definition run_tool (t : ToolCall) : M Payload :=
  match t with
  | Ping payload => ping payload
  | TestMicrophone duration => test_microphone duration
  | TranscribeOnce duration backend => transcribe_once duration backend
  | CalibrateAudio duration => calibrate_audio duration
  | ListAudioDevices => list_audio_devices
  | GetEngineStatus => get_engine_status
  end.


(** The server's life: requests served one after another. *)
Fixpoint serve (requests : list ToolCall) (w : World P) : World P :=
  match requests with
  | [] => w
  | t :: rest => serve rest (snd (run_tool t w))
  end.

End Tools.

Arguments sr_name {P}.
Arguments get_speech_engine {P}.
Arguments list_audio_devices_body {P}.
Arguments list_audio_devices {P}.
Arguments get_engine_status_body {P}.
Arguments get_engine_status {P}.

(* ===================================================================== *)
(** ** The fallback policy, as the specification words it *)
(* ===================================================================== *)

Section Policy.

Variable P : Platform.
Local Abbreviation M := (M P).

(** "the configured primary (fallback) backend, only if it is set and
    present in the mapping" *)
Definition configured_candidate (which : option RecognitionBackend) (d : EngineDict)
  : EngineDict :=
  match which with
  | Some k =>
      match dict_get k d with
      | Some engine => [(k, engine)]
      | None => []
      end
  | None => []
  end.

(** The ordered candidate list: primary, fallback, then every remaining
    registered backend in mapping-iteration order, skipping any backend equal
    to the primary or the fallback. *)
Definition attempt_order (self : MultiEngine) : EngineDict :=
  configured_candidate (primary self) (engines self)
  ++ configured_candidate (fallback self) (engines self)
  ++ filter (fun kv => negb (in_pair (fst kv) (primary self) (fallback self)))
            (engines self).

(** Try the candidates in order; an [Exception] of one is swallowed and the
    next is tried; the first success is returned; [otherwise] runs when all
    have failed.  What is not an [Exception] ends the call. *)
Fixpoint first_success_or (candidates : EngineDict) (audio_data : AudioInput)
    (otherwise : M RecognitionResult) : M RecognitionResult :=
  match candidates with
  | [] => otherwise
  | (k, engine) :: rest =>
      try_except (await_recognize k engine audio_data)
                 (fun _ => first_success_or rest audio_data otherwise)
  end.

(** First success wins; total exhaustion raises the terminal error. *)
Definition first_success (candidates : EngineDict) (audio_data : AudioInput)
  : M RecognitionResult :=
  first_success_or candidates audio_data (raise all_engines_failed).

(** Every candidate of the list, attempted in turn from [w], fails with
    an [Exception]; the result is the world the last failure leaves. *)
Fixpoint all_fail (candidates : EngineDict) (audio_data : AudioInput) (w : World P)
  : option (World P) :=
  match candidates with
  | [] => Some w
  | (k, engine) :: rest =>
      match await_recognize k engine audio_data w with
      | (inl e, w') =>
          if is_exception (exc_class e) then all_fail rest audio_data w' else None
      | (inr _, _) => None
      end
  end.

(** The attempt that ends a call over [candidates] from [w]: the candidates
    before it have failed with [Exception]s, and it has the given outcome. *)
Definition decided_by (candidates : EngineDict) (audio_data : AudioInput) (w : World P)
    (outcome : PyExc + RecognitionResult) (w' : World P) : Prop :=
  exists pre k engine post w1,
    candidates = pre ++ (k, engine) :: post
    /\ all_fail pre audio_data w = Some w1
    /\ await_recognize k engine audio_data w1 = (outcome, w').

End Policy.

(* ===================================================================== *)
(** ** A small platform to run the model on *)
(* ===================================================================== *)

Module Demo.

(** Canned answers of the collaborators.  The recognition services answer
    from a script, one entry per call. *)
Record Script : Type := mkScript {
  google_answers : list (PyExc + string);
  whisper_answers : list (PyExc + string);
  tempfile_answer : PyExc + string;
  listen_answer : PyExc + AudioData;
  microphone_names : PyExc + list string;
  elevenlabs_sdk : PyExc + unit;
  whisper_sdk : PyExc + unit;
  clock : float
}.

Definition unreachable : PyExc := mkExc RequestError "recognition connection failed" None.

Definition call (A : Type) (op : ExtOp A) (s : Script) : (PyExc + A) * Script :=
  match op in ExtOp T return (PyExc + T) * Script with
  | SrMicrophone index => (inr (mkMicrophone index), s)
  | MicEnter _ => (inr tt, s)
  | MicExit _ => (inr tt, s)
  | AdjustForAmbientNoise _ _ => (inr (NFloat 312.5), s)
  | Listen _ _ _ => (listen_answer s, s)
  | ListMicrophoneNames => (microphone_names s, s)
  | RecognizeGoogle _ =>
      match google_answers s with
      | r :: rest =>
          (r, mkScript rest (whisper_answers s) (tempfile_answer s) (listen_answer s)
                       (microphone_names s) (elevenlabs_sdk s) (whisper_sdk s) (clock s))
      | [] => (inl unreachable, s)
      end
  | RecognizeWhisper _ _ =>
      match whisper_answers s with
      | r :: rest =>
          (r, mkScript (google_answers s) rest (tempfile_answer s) (listen_answer s)
                       (microphone_names s) (elevenlabs_sdk s) (whisper_sdk s) (clock s))
      | [] => (inl unreachable, s)
      end
  | GetWavData a => (inr (frame_data a), s)
  | TempfileWrite _ => (tempfile_answer s, s)
  | OsUnlink _ => (inr tt, s)
  | TimeTime => (inr (clock s), s)
  | DatetimeNowIsoformat => (inr "2025-01-01T00:00:00", s)
  | ImportElevenLabs _ => (elevenlabs_sdk s, s)
  | ImportWhisper => (whisper_sdk s, s)
  | WhisperLoadModel _ => (inr tt, s)
  end.

Definition lower_ascii (c : ascii) : ascii :=
  let n := nat_of_ascii c in
  if (65 <=? n)%nat && (n <=? 90)%nat then ascii_of_nat (n + 32) else c.

Fixpoint lower (s : string) : string :=
  match s with
  | EmptyString => EmptyString
  | String c rest => String (lower_ascii c) (lower rest)
  end.

Definition is_space (c : ascii) : bool := (nat_of_ascii c =? 32)%nat.

Fixpoint lstrip (s : string) : string :=
  match s with
  | EmptyString => EmptyString
  | String c rest => if is_space c then lstrip rest else s
  end.

Fixpoint rstrip (s : string) : string :=
  match s with
  | EmptyString => EmptyString
  | String c rest =>
      match rstrip rest with
      | EmptyString => if is_space c then EmptyString else String c EmptyString
      | kept => String c kept
      end
  end.

Definition digit_of (c : ascii) : option Z :=
  let n := nat_of_ascii c in
  if (48 <=? n)%nat && (n <=? 57)%nat then Some (Z.of_nat (n - 48)) else None.

Fixpoint digits (acc : Z) (s : string) : option Z :=
  match s with
  | EmptyString => Some acc
  | String c rest =>
      match digit_of c with
      | Some d => digits (10 * acc + d) rest
      | None => None
      end
  end.

Definition parse_int (s : string) : option Z :=
  match s with
  | EmptyString => None
  | _ => digits 0 s
  end.

Definition int_of (s : string) : PyExc + Z :=
  match parse_int s with
  | Some z => inr z
  | None => inl (mkExc ValueError ("invalid literal for int() with base 10: '" ++ s ++ "'") None)
  end.

(** [float] of the spellings the examples use. *)
Definition float_of (s : string) : PyExc + float :=
  match s with
  | "0.8" => inr 0.8%float
  | "1.0" => inr 1.0%float
  | _ => inl (mkExc ValueError ("could not convert string to float: '" ++ s ++ "'") None)
  end.

(** [format(n, ".1f")] of the thresholds this platform reports. *)
Definition show_1f (n : Num) : string :=
  match n with
  | NFloat _ => "312.5"
  | NInt _ => "300.0"
  end.

Definition platform : Platform :=
  mkPlatform call lower (fun s => rstrip (lstrip s))
             (fun s => match parse_int s with Some _ => true | None => false end)
             int_of float_of show_1f.

Definition no_env : string -> option string := fun _ => None.

Definition quiet : Script :=
  mkScript [] [] (inr "/tmp/tmpa1b2c3.wav")
           (inr (mkAudioData [] 16000 2)) (inr ["Built-in Microphone"])
           (inl (mkExc ImportError "No module named 'elevenlabs'" None))
           (inl (mkExc ImportError "No module named 'whisper'" None))
           100.0.

Definition with_google (answers : list (PyExc + string)) (s : Script) : Script :=
  mkScript answers (whisper_answers s) (tempfile_answer s) (listen_answer s)
           (microphone_names s) (elevenlabs_sdk s) (whisper_sdk s) (clock s).

Definition start (env : string -> option string) (s : Script) : World platform :=
  mkWorld platform env true None [] s.

Definition an_engine (c : EngineClass) : SpeechEngine :=
  mkEngine c [] (mkRecognizer (NInt 4000) (NFloat 0.8) true) (mkMicrophone None) true "".

Definition silence : AudioInput := OfAudioData (mkAudioData [] 16000 2).

(** Two registered engines, ElevenLabs first, Google as fallback. *)
Definition two_engines : MultiEngine :=
  mkMultiEngine [(ELEVENLABS, an_engine ElevenLabsEngine); (GOOGLE, an_engine GoogleEngine)]
                (Some ELEVENLABS) (Some GOOGLE).

(** Only Google registered, configured both as primary and as fallback. *)
Definition google_twice : MultiEngine :=
  mkMultiEngine [(GOOGLE, an_engine GoogleEngine)] (Some GOOGLE) (Some GOOGLE).

Definition disk_full (s : Script) : Script :=
  mkScript (google_answers s) (whisper_answers s)
           (inl (mkExc OSError "[Errno 28] No space left on device" None))
           (listen_answer s) (microphone_names s) (elevenlabs_sdk s) (whisper_sdk s)
           (clock s).

Definition not_understood : PyExc + string := inl (mkExc UnknownValueError "" None).

(** The task awaiting the temporary file is cancelled. *)
Definition cancelled : PyExc := mkExc CancelledError "" None.

Definition cancel_tempfile (s : Script) : Script :=
  mkScript (google_answers s) (whisper_answers s) (inl cancelled)
           (listen_answer s) (microphone_names s) (elevenlabs_sdk s) (whisper_sdk s)
           (clock s).

(** ElevenLabs cannot write its temporary file; Google understands. *)
Definition primary_down : World platform :=
  start no_env (disk_full (with_google [inr "open the pod bay doors"] quiet)).

(** The ElevenLabs attempt is cancelled; Google would understand. *)
Definition primary_cancelled : World platform :=
  start no_env (cancel_tempfile (with_google [inr "open the pod bay doors"] quiet)).

(** Both engines registered, Google first in line, ElevenLabs as fallback. *)
Definition google_first : MultiEngine :=
  mkMultiEngine [(ELEVENLABS, an_engine ElevenLabsEngine); (GOOGLE, an_engine GoogleEngine)]
                (Some GOOGLE) (Some ELEVENLABS).

(** The user presses Ctrl-C while Google is asked; ElevenLabs would answer. *)
Definition interrupted : World platform :=
  start no_env (with_google [inl (mkExc KeyboardInterrupt "" None)] quiet).

(** Google does not understand, however often it is asked. *)
Definition mumbling (env : string -> option string) : World platform :=
  start env (with_google [not_understood; not_understood; not_understood] quiet).

(** [VOICE_BACKEND=google], [VOICE_FALLBACK] left at its default. *)
Definition env_google_primary : string -> option string :=
  fun name => if String.eqb name "VOICE_BACKEND" then Some "google" else None.

(** [VOICE_BACKEND=Google]: not the value of any member, but its
    lower-case form is. *)
Definition env_mixed_case : string -> option string :=
  fun name => if String.eqb name "VOICE_BACKEND" then Some "Google" else None.

(** [VOICE_BACKEND=azure], [VOICE_FALLBACK=Bing Speech]: no such backends. *)
Definition env_unknown_names : string -> option string :=
  fun name =>
    if String.eqb name "VOICE_BACKEND" then Some "azure"
    else if String.eqb name "VOICE_FALLBACK" then Some "Bing Speech"
    else None.



Definition requests : list ToolCall :=
  [GetEngineStatus; CalibrateAudio (NFloat 2.0); TranscribeOnce (NInt 5) None;
   TranscribeOnce (NInt 5) (Some "openai")].

End Demo.

(* ===================================================================== *)
(** ** Predicates used by the statements *)
(* ===================================================================== *)

(** The computation leaves the observation [f] of the world as it was,
    whether it returns or raises. *)
Definition keeps {P : Platform} {X A : Type} (f : World P -> X) (m : M P A) : Prop :=
  forall w, f (snd (m w)) = f w.

(** The computation maintains a property of the module's singleton. *)
Definition maintains {P : Platform} {A : Type} (I : option MultiEngine -> Prop) (m : M P A)
  : Prop :=
  forall w, I (_speech_engine w) -> I (_speech_engine (snd (m w))).

(** The name [MultiEngine()] looks up for a role: the environment variable,
    or its default, in lower case. *)
Definition configured_name {P : Platform} (w : World P) (variable default : string) : string :=
  str_lower P (match environ w variable with Some s => s | None => default end).



(** The tools whose payloads carry a [success] field. *)
Definition reports_success (t : ToolCall) : bool :=
  match t with
  | TestMicrophone _ | TranscribeOnce _ _ | CalibrateAudio _ => true
  | Ping _ | ListAudioDevices | GetEngineStatus => false
  end.

(** Every engine of the mapping is available. *)
Definition all_available (g : option MultiEngine) : Prop :=
  match g with
  | Some me => Forall (fun kv => available (snd kv) = true) (engines me)
  | None => True
  end.

(** The mapping does not hold the fourth backend. *)
Definition no_openai (g : option MultiEngine) : Prop :=
  match g with
  | Some me => ~ In OPENAI_REALTIME (keys (engines me))
  | None => True
  end.

(* ===================================================================== *)
(** ** voice_server.py: the entry point *)
(* ===================================================================== *)

Section EntryPoint.

Variable P : Platform.

(** Whether [fastmcp] could be imported. *)
Variable MCP_AVAILABLE : bool.

(** [mcp.run()]: the RPC loop of the framework. *)
Variable mcp_run : M P unit.

(** The [if __name__ == "__main__":] block.  The value is the exit status
    of the process: 1 where the block calls [sys.exit(1)], 0 where it runs
    to its end; an exception that leaves the block is raised. *)
Definition main : M P Z :=
  if negb MCP_AVAILABLE then ret 1%Z
  else
    ok <- components_available ;;
    if negb ok then ret 1%Z
    else
      (* Initialize speech engine to validate setup *)
      ready <- try_except (engine <- get_speech_engine ;; ret true)
                          (fun _ => ret false) ;;
      if negb ready then ret 1%Z
      else
        (* Run the MCP server *)
        try_clauses (mcp_run ;;; ret 0%Z)
          (fun e =>
             match exc_class e with
             | KeyboardInterrupt => ret 0%Z
             | c => if is_exception c then ret 1%Z else raise e
             end).

End EntryPoint.

(* ===================================================================== *)
(** ** Further predicates *)
(* ===================================================================== *)

(** The backend an engine class writes into its results. *)
Definition backend_of_class (c : EngineClass) : RecognitionBackend :=
  match c with
  | ElevenLabsEngine => ELEVENLABS
  | GoogleEngine => GOOGLE
  | WhisperEngine => WHISPER
  end.

(** The confidence an engine class writes into its results. *)
Definition confidence_of_class (c : EngineClass) : float :=
  match c with
  | ElevenLabsEngine => 0.95%float
  | GoogleEngine => 0.90%float
  | WhisperEngine => 0.85%float
  end.

(** Every engine of the mapping sits under the key of its own class. *)
Definition well_keyed (d : EngineDict) : Prop :=
  Forall (fun kv => backend_of_class (engine_class (snd kv)) = fst kv) d.

Definition singleton_well_keyed (g : option MultiEngine) : Prop :=
  match g with
  | Some me => well_keyed (engines me)
  | None => True
  end.

(** An engine with its energy threshold blanked. *)
Definition without_threshold (e : SpeechEngine) : SpeechEngine :=
  with_energy_threshold e (NInt 0).

(** Everything of a [MultiEngine] but the engines' energy thresholds. *)
Definition configuration (me : MultiEngine)
  : list (RecognitionBackend * SpeechEngine)
    * option RecognitionBackend * option RecognitionBackend :=
  (map (fun kv => (fst kv, without_threshold (snd kv))) (engines me),
   primary me, fallback me).

(** The singleton exists and has the given configuration. *)
Definition configured_as
    (c : list (RecognitionBackend * SpeechEngine)
         * option RecognitionBackend * option RecognitionBackend)
    (g : option MultiEngine) : Prop :=
  match g with
  | Some me => configuration me = c
  | None => False
  end.

(** The first entry flagged [default], if any: its position. *)
Fixpoint first_default (devices : list Payload) : option nat :=
  match devices with
  | [] => None
  | device :: rest =>
      match jlookup "default" device with
      | Some (JBool true) => Some 0
      | _ => option_map S (first_default rest)
      end
  end.

(** The entries [list_available_microphones] builds for [names], numbered
    from [index], given which of them it flags as default. *)
Fixpoint device_entries (index : Z) (names : list string) (flags : list bool)
  : list Payload :=
  match names, flags with
  | name :: names', flag :: flags' =>
      [("index", JNum (NInt index)); ("name", JStr name); ("default", JBool flag)]
      :: device_entries (index + 1) names' flags'
  | _, _ => []
  end.

(** As [speech_recognition] has it: a [Microphone()] made without an index
    reports [device_index] [None]. *)
Definition default_microphone_has_no_index (P : Platform) : Prop :=
  forall (s s' : Ext P) (m : Microphone),
    ext_call P (SrMicrophone None) s = (inr m, s') -> device_index m = None.

(** One entry of [engine_details] per engine. *)
Definition details_entries (d : EngineDict) : Payload :=
  map (fun kv => (value (fst kv),
                  JDict [("available", JBool (available (snd kv)));
                         ("type", JStr (class_name (engine_class (snd kv))))]))
      d.

(** More environments and collaborators to run the model on. *)
Module Scenes.

(** [VOICE_ENERGY_THRESHOLD=loud] *)
Definition env_loud : string -> option string :=
  fun name => if String.eqb name "VOICE_ENERGY_THRESHOLD" then Some "loud" else None.

(** Two input devices. *)
Definition two_devices (s : Demo.Script) : Demo.Script :=
  Demo.mkScript (Demo.google_answers s) (Demo.whisper_answers s) (Demo.tempfile_answer s)
                (Demo.listen_answer s) (inr ["Built-in Microphone"; "USB Headset"])
                (Demo.elevenlabs_sdk s) (Demo.whisper_sdk s) (Demo.clock s).

(** A world in which the singleton already exists. *)
Definition serving : World Demo.platform :=
  mkWorld Demo.platform Demo.no_env true (Some Demo.two_engines) [] Demo.quiet.

(** An RPC loop that serves the given requests and returns. *)
Definition run_requests (requests : list ToolCall) : M Demo.platform unit :=
  fun w => (inr tt, serve requests w).

End Scenes.

(* ===================================================================== *)
(** * Properties *)
(* ===================================================================== *)

(** ** Backends and dictionaries *)

Lemma backend_eqb_eq (a b : RecognitionBackend) : backend_eqb a b = true <-> a = b.
Proof. destruct a, b; simpl; split; intro H; try reflexivity; discriminate H. Qed.

Lemma backend_eqb_refl (a : RecognitionBackend) : backend_eqb a a = true.
Proof. now apply backend_eqb_eq. Qed.

Lemma value_injective (a b : RecognitionBackend) : value a = value b -> a = b.
Proof. destruct a, b; simpl; intro H; try reflexivity; discriminate H. Qed.

Lemma dict_get_in_keys {V : Type} (k : RecognitionBackend) (d : list (RecognitionBackend * V)) :
  In k (keys d) <-> exists v, dict_get k d = Some v.
Proof.
  induction d as [|[k' v'] d IH]; simpl.
  - split; [intros [] | intros [v H]; discriminate H].
  - destruct (backend_eqb k' k) eqn:E.
    + apply backend_eqb_eq in E. split; [intros _; now exists v' | intros _; now left].
    + rewrite <- IH. split; [intros [H|H]; [|exact H] | intro H; now right].
      subst k'. now rewrite backend_eqb_refl in E.
Qed.

Lemma in_pair_spec (x : RecognitionBackend) (a b : option RecognitionBackend) :
  in_pair x a b = true <-> a = Some x \/ b = Some x.
Proof.
  unfold in_pair. rewrite orb_true_iff.
  destruct a as [a|], b as [b|]; rewrite ?backend_eqb_eq;
    split; intros [H|H]; try discriminate H;
    first [ left; congruence | right; congruence ].
Qed.

(** ** The monad *)

Section MonadFacts.

Variable P : Platform.

Lemma bind_inr_inv {A B : Type} (m : M P A) (k : A -> M P B) w b w' :
  bind m k w = (inr b, w') ->
  exists a w1, m w = (inr a, w1) /\ k a w1 = (inr b, w').
Proof.
  unfold bind. destruct (m w) as [[e|a] w1]; intro H; [discriminate H|].
  now exists a, w1.
Qed.

Lemma bind_inl_inv {A B : Type} (m : M P A) (k : A -> M P B) w e w' :
  bind m k w = (inl e, w') ->
  m w = (inl e, w') \/ exists a w1, m w = (inr a, w1) /\ k a w1 = (inl e, w').
Proof.
  unfold bind. destruct (m w) as [[e0|a] w1]; intro H.
  - left. injection H as -> ->. reflexivity.
  - right. now exists a, w1.
Qed.

Lemma bind_of_inr {A B : Type} (m : M P A) (k : A -> M P B) w a w1 :
  m w = (inr a, w1) -> bind m k w = k a w1.
Proof. unfold bind. now intros ->. Qed.


Lemma clauses_of_inr {A : Type} (m : M P A) (h : PyExc -> M P A) w a w1 :
  m w = (inr a, w1) -> try_clauses m h w = (inr a, w1).
Proof. unfold try_clauses. now intros ->. Qed.


Lemma try_of_inr {A : Type} (m : M P A) (h : PyExc -> M P A) w a w1 :
  m w = (inr a, w1) -> try_except m h w = (inr a, w1).
Proof. unfold try_except, try_clauses. now intros ->. Qed.

(** [except Exception] handles what derives from [Exception] ... *)
Lemma try_of_inl {A : Type} (m : M P A) (h : PyExc -> M P A) w e w1 :
  m w = (inl e, w1) -> is_exception (exc_class e) = true -> try_except m h w = h e w1.
Proof. unfold try_except, try_clauses. now intros -> ->. Qed.

(** ... and lets the rest through. *)
Lemma try_of_escape {A : Type} (m : M P A) (h : PyExc -> M P A) w e w1 :
  m w = (inl e, w1) -> is_exception (exc_class e) = false ->
  try_except m h w = (inl e, w1).
Proof. unfold try_except, try_clauses. now intros -> ->. Qed.

(** Whatever leaves a handler-free [except Exception] is not an
    [Exception]. *)
Lemma try_raises_only_escapes {A : Type} (m : M P A) (h : PyExc -> M P A) w e w1 :
  (forall x w2, exists a, h x w2 = (inr a, w2)) ->
  try_except m h w = (inl e, w1) ->
  m w = (inl e, w1) /\ is_exception (exc_class e) = false.
Proof.
  intros Hh. unfold try_except, try_clauses.
  destruct (m w) as [[x|a] w2]; [|discriminate].
  destruct (is_exception (exc_class x)) eqn:E.
  - destruct (Hh x w2) as [a ->]. discriminate.
  - unfold raise. intro H. injection H as <- <-. now split.
Qed.

End MonadFacts.

(** ** The coordinator refines the ordered-candidates policy *)

Section PolicyFacts.

Variable P : Platform.
Variable audio_data : AudioInput.

Local Abbreviation fall_through K :=
  (fun r : option RecognitionResult =>
     match r with
     | Some result => ret result
     | None => K
     end).

Lemma first_success_or_ext (cands : EngineDict) (K K' : M P RecognitionResult) :
  (forall w : World P, K w = K' w) ->
  forall w : World P, first_success_or cands audio_data K w = first_success_or cands audio_data K' w.
Proof.
  intro HK. induction cands as [|[k e] rest IH]; simpl; intro w; [apply HK|].
  unfold try_except, try_clauses.
  destruct (await_recognize k e audio_data w) as [[x|r] w1]; auto.
  destruct (is_exception (exc_class x)); auto.
Qed.

Lemma first_success_or_app (a b : EngineDict) (K : M P RecognitionResult) :
  forall w : World P, first_success_or (a ++ b) audio_data K w
            = first_success_or a audio_data (first_success_or b audio_data K) w.
Proof.
  induction a as [|[k e] rest IH]; simpl; intro w; [reflexivity|].
  unfold try_except, try_clauses.
  destruct (await_recognize k e audio_data w) as [[x|r] w1]; auto.
  destruct (is_exception (exc_class x)); auto.
Qed.

Lemma attempt_then (k : RecognitionBackend) (e : SpeechEngine) (K : M P RecognitionResult) :
  forall w : World P, bind (attempt k e audio_data) (fall_through K) w
            = try_except (await_recognize k e audio_data) (fun _ => K) w.
Proof.
  intro w. unfold attempt. unfold bind, try_except, try_clauses, ret.
  destruct (await_recognize k e audio_data w) as [[x|r] w1]; [|reflexivity].
  destruct (is_exception (exc_class x)); reflexivity.
Qed.

Lemma attempt_configured_then (which : option RecognitionBackend) (self : MultiEngine)
    (K : M P RecognitionResult) :
  forall w : World P, bind (attempt_configured which self audio_data) (fall_through K) w
            = first_success_or (configured_candidate which (engines self)) audio_data K w.
Proof.
  intro w. unfold attempt_configured, configured_candidate.
  destruct which as [k|]; [|reflexivity].
  destruct (dict_get k (engines self)) as [e|]; [|reflexivity].
  simpl. apply attempt_then.
Qed.

Lemma attempt_remaining_then (self : MultiEngine) (items : EngineDict)
    (K : M P RecognitionResult) :
  forall w : World P, bind (attempt_remaining self items audio_data) (fall_through K) w
            = first_success_or
                (filter (fun kv => negb (in_pair (fst kv) (primary self) (fallback self))) items)
                audio_data K w.
Proof.
  induction items as [|[k e] rest IH]; intro w; [reflexivity|].
  simpl. destruct (negb (in_pair k (primary self) (fallback self))); [|apply IH].
  simpl. unfold attempt. unfold bind, try_except, try_clauses, ret.
  destruct (await_recognize k e audio_data w) as [[x|r] w1]; [|reflexivity].
  destruct (is_exception (exc_class x)); [|reflexivity].
  rewrite <- IH. reflexivity.
Qed.

(** [recognize_with_fallback] is first-success-wins over [attempt_order]. *)
Lemma recognize_with_fallback_refines (self : MultiEngine) :
  forall w : World P, recognize_with_fallback self audio_data w
            = first_success (attempt_order self) audio_data w.
Proof.
  intro w. unfold recognize_with_fallback, first_success, attempt_order.
  rewrite attempt_configured_then, first_success_or_app.
  apply first_success_or_ext. clear w. intro w.
  rewrite attempt_configured_then, first_success_or_app.
  apply first_success_or_ext. clear w. intro w.
  apply attempt_remaining_then.
Qed.

Lemma first_success_or_after_failures (pre rest : EngineDict) (K : M P RecognitionResult) :
  forall w w1 : World P, all_fail pre audio_data w = Some w1 ->
    first_success_or (pre ++ rest) audio_data K w = first_success_or rest audio_data K w1.
Proof.
  induction pre as [|[k e] pre IH]; simpl; intros w w1 H.
  - now injection H as ->.
  - unfold try_except, try_clauses.
    destruct (await_recognize k e audio_data w) as [[x|r] w']; [|discriminate H].
    destruct (is_exception (exc_class x)); [|discriminate H].
    now apply IH.
Qed.

Lemma all_fail_app (pre rest : EngineDict) :
  forall w w1 : World P, all_fail pre audio_data w = Some w1 ->
    all_fail (pre ++ rest) audio_data w = all_fail rest audio_data w1.
Proof.
  induction pre as [|[k e] pre IH]; simpl; intros w w1 H.
  - now injection H as ->.
  - destruct (await_recognize k e audio_data w) as [[x|r] w']; [|discriminate H].
    destruct (is_exception (exc_class x)); [|discriminate H].
    now apply IH.
Qed.

(** Every candidate fails with an [Exception] and the terminal error is
    raised; or some candidate succeeds and its result is returned; or some
    candidate raises what is not an [Exception], which leaves the call. *)
Lemma first_success_cases (cands : EngineDict) :
  forall w : World P,
    (exists w', all_fail cands audio_data w = Some w'
                /\ first_success cands audio_data w = (inl all_engines_failed, w'))
    \/ (all_fail cands audio_data w = None
        /\ exists r w', first_success cands audio_data w = (inr r, w')
                        /\ decided_by cands audio_data w (inr r) w')
    \/ (all_fail cands audio_data w = None
        /\ exists x w', first_success cands audio_data w = (inl x, w')
                        /\ is_exception (exc_class x) = false
                        /\ decided_by cands audio_data w (inl x) w').
Proof.
  unfold first_success.
  induction cands as [|[k e] rest IH]; simpl; intro w.
  - left. now exists w.
  - unfold try_except, try_clauses.
    destruct (await_recognize k e audio_data w) as [[x|r] w1] eqn:Hk.
    + destruct (is_exception (exc_class x)) eqn:Hx.
      * assert (Hpre : all_fail [(k, e)] audio_data w = Some w1).
        { simpl. now rewrite Hk, Hx. }
        destruct (IH w1) as [H | [(Hnone & r & w' & Hres & Hd) | (Hnone & y & w' & Hres & Hy & Hd)]].
        -- left. exact H.
        -- right. left. split; [exact Hnone|]. exists r, w'. split; [exact Hres|].
           destruct Hd as (pre & k' & e' & post & w2 & -> & Hall & Hawait).
           exists ((k, e) :: pre), k', e', post, w2. split; [reflexivity|].
           split; [|exact Hawait]. simpl. now rewrite Hk, Hx.
        -- right. right. split; [exact Hnone|]. exists y, w'. split; [exact Hres|].
           split; [exact Hy|].
           destruct Hd as (pre & k' & e' & post & w2 & -> & Hall & Hawait).
           exists ((k, e) :: pre), k', e', post, w2. split; [reflexivity|].
           split; [|exact Hawait]. simpl. now rewrite Hk, Hx.
      * right. right. split; [reflexivity|]. exists x, w1. split; [reflexivity|].
        split; [exact Hx|]. exists [], k, e, rest, w. now repeat split.
    + right. left. split; [reflexivity|]. exists r, w1. split; [reflexivity|].
      exists [], k, e, rest, w. now repeat split.
Qed.

End PolicyFacts.

(** ** Frame lemmas: what a computation leaves untouched *)

Section Frame.

Variable P : Platform.
Variable X : Type.
Variable f : World P -> X.

(** [f] does not look at the collaborators' state. *)
Hypothesis f_ext :
  forall w s, f (mkWorld P (environ w) (SPEECH_COMPONENTS_AVAILABLE w) (_speech_engine w)
                         (recognize_calls w) s) = f w.

Lemma keeps_ret {A : Type} (a : A) : keeps f (ret a).
Proof. intro w. reflexivity. Qed.

Lemma keeps_raise {A : Type} (e : PyExc) : keeps f (@raise P A e).
Proof. intro w. reflexivity. Qed.

Lemma keeps_lift {A : Type} (r : PyExc + A) : keeps f (lift r).
Proof. intro w. reflexivity. Qed.

Lemma keeps_getenv (name : string) : keeps f (getenv name).
Proof. intro w. reflexivity. Qed.

Lemma keeps_components : keeps f components_available.
Proof. intro w. reflexivity. Qed.

Lemma keeps_get_global : keeps f get_global.
Proof. intro w. reflexivity. Qed.

Lemma keeps_ext {A : Type} (op : ExtOp A) : keeps f (ext op).
Proof.
  intro w. unfold ext. destruct (ext_call P op (ext_state w)) as [r s]. apply f_ext.
Qed.

Lemma keeps_bind {A B : Type} (m : M P A) (k : A -> M P B) :
  keeps f m -> (forall a, keeps f (k a)) -> keeps f (bind m k).
Proof.
  intros Hm Hk w. unfold bind. specialize (Hm w).
  destruct (m w) as [[e|a] w1]; simpl in *; [exact Hm|].
  rewrite Hk. exact Hm.
Qed.

Lemma keeps_clauses {A : Type} (m : M P A) (h : PyExc -> M P A) :
  keeps f m -> (forall e, keeps f (h e)) -> keeps f (try_clauses m h).
Proof.
  intros Hm Hh w. unfold try_clauses. specialize (Hm w).
  destruct (m w) as [[e|a] w1]; simpl in *; [|exact Hm].
  rewrite Hh. exact Hm.
Qed.

Lemma keeps_try {A : Type} (m : M P A) (h : PyExc -> M P A) :
  keeps f m -> (forall e, keeps f (h e)) -> keeps f (try_except m h).
Proof.
  intros Hm Hh. unfold try_except. apply keeps_clauses; [exact Hm|].
  intro e. destruct (is_exception (exc_class e)); [apply Hh | apply keeps_raise].
Qed.

Lemma keeps_finally {A : Type} (m : M P A) (c : M P unit) :
  keeps f m -> keeps f c -> keeps f (finally_ m c).
Proof.
  intros Hm Hc w. unfold finally_. specialize (Hm w).
  destruct (m w) as [r w1]. specialize (Hc w1).
  destruct (c w1) as [[e|u] w2]; simpl in *; congruence.
Qed.

End Frame.

Create HintDb frame.

Ltac frame_step :=
  first
    [ match goal with |- forall _, _ => intro end
    | progress cbv zeta
    | assumption
    | match goal with
      | |- keeps _ (ret _) => apply keeps_ret
      | |- keeps _ (raise _) => apply keeps_raise
      | |- keeps _ (lift _) => apply keeps_lift
      | |- keeps _ (getenv _) => apply keeps_getenv
      | |- keeps _ components_available => apply keeps_components
      | |- keeps _ get_global => apply keeps_get_global
      | |- keeps _ (ext _) => apply keeps_ext; first [assumption | intros; reflexivity]
      | |- keeps _ (bind _ _) => apply keeps_bind
      | |- keeps _ (try_except _ _) => apply keeps_try
      | |- keeps _ (try_clauses _ _) => apply keeps_clauses
      | |- keeps _ (finally_ _ _) => apply keeps_finally
      | |- keeps _ (match ?x with _ => _ end) => destruct x
      end
    | solve [eauto with frame] ].

Ltac frame := repeat frame_step.

Section FramePrograms.

Variable P : Platform.
Variable X : Type.
Variable f : World P -> X.
Hypothesis f_ext :
  forall w s, f (mkWorld P (environ w) (SPEECH_COMPONENTS_AVAILABLE w) (_speech_engine w)
                         (recognize_calls w) s) = f w.

Lemma keeps_recognize (e : SpeechEngine) (a : AudioInput) : keeps f (recognize e a).
Proof.
  unfold recognize, ElevenLabsEngine_recognize, GoogleEngine_recognize,
    WhisperEngine_recognize, _elevenlabs_stt, _convert_audio_format.
  frame.
Qed.

Lemma keeps_SpeechEngine_init c cfg : keeps f (SpeechEngine_init c cfg).
Proof. unfold SpeechEngine_init. frame. Qed.

Lemma keeps_build_engines : keeps f build_engines.
Proof.
  pose proof keeps_SpeechEngine_init.
  unfold build_engines, ElevenLabsEngine_init, GoogleEngine_init, WhisperEngine_init,
    except_ImportError.
  frame.
Qed.

Lemma keeps_MultiEngine_init : keeps f MultiEngine_init.
Proof.
  pose proof keeps_build_engines.
  unfold MultiEngine_init, getenv_default, backend_if_member. frame.
Qed.

Lemma keeps_with_microphone {A : Type} (mic : Microphone) (body : M P A) :
  keeps f body -> keeps f (with_microphone mic body).
Proof. intro H. unfold with_microphone. frame. Qed.

Lemma keeps_get_microphone (self : MultiEngine) : keeps f (get_microphone self).
Proof. unfold get_microphone. frame. Qed.

Lemma keeps_enumerate_microphones (names : list string) :
  forall i, keeps f (enumerate_microphones i names).
Proof. induction names as [|n rest IH]; intro i; simpl; frame. Qed.

Lemma keeps_list_available_microphones (self : MultiEngine) :
  keeps f (list_available_microphones self).
Proof.
  pose proof keeps_enumerate_microphones. unfold list_available_microphones. frame.
Qed.

Lemma keeps_MultiEngine_test_microphone (self : MultiEngine) (d : Num) :
  keeps f (MultiEngine_test_microphone self d).
Proof.
  pose proof keeps_get_microphone.
  unfold MultiEngine_test_microphone, with_microphone. frame.
Qed.

Lemma keeps_find_default (devices : list Payload) : keeps f (find_default devices).
Proof.
  induction devices as [|d rest IH]; simpl; [frame|].
  destruct (jlookup "default" d) as [[| [|] | | | |]|]; frame.
Qed.

End FramePrograms.

(** ** The attempts a call makes *)

Section Attempts.

Variable P : Platform.
Variable audio_data : AudioInput.

Lemma await_recognize_calls (k : RecognitionBackend) (e : SpeechEngine) (w : World P) :
  recognize_calls (snd (await_recognize k e audio_data w)) = recognize_calls w ++ [k].
Proof.
  unfold await_recognize, bind, note_recognize.
  match goal with |- context [recognize e audio_data ?w1] =>
    pose proof (@keeps_recognize P _ (@recognize_calls P) (fun _ _ => eq_refl) e audio_data w1) as H;
    destruct (recognize e audio_data w1) as [[x|r] w2]
  end; exact H.
Qed.

Lemma all_fail_calls (cands : EngineDict) :
  forall w w' : World P, all_fail cands audio_data w = Some w' ->
    recognize_calls w' = recognize_calls w ++ keys cands.
Proof.
  induction cands as [|[k e] rest IH]; simpl; intros w w' H.
  - injection H as <-. now rewrite app_nil_r.
  - pose proof (await_recognize_calls k e w) as Hk.
    destruct (await_recognize k e audio_data w) as [[x|r] w1]; [|discriminate H].
    destruct (is_exception (exc_class x)); [|discriminate H].
    simpl in Hk. rewrite (IH _ _ H), Hk, <- app_assoc. reflexivity.
Qed.

(** The calls made are a prefix of the candidates: all of them when an
    [Exception] is raised, at least one when a result is returned or
    something else is raised. *)
Lemma first_success_calls (cands : EngineDict) :
  forall w : World P,
    exists n, n <= List.length cands
      /\ recognize_calls (snd (first_success cands audio_data w))
         = recognize_calls w ++ keys (firstn n cands)
      /\ match fst (first_success cands audio_data w) with
         | inl x => if is_exception (exc_class x) then n = List.length cands else 0 < n
         | inr _ => 0 < n
         end.
Proof.
  unfold first_success.
  induction cands as [|[k e] rest IH]; simpl; intro w.
  - exists 0. simpl. rewrite app_nil_r. auto.
  - unfold try_except, try_clauses. pose proof (await_recognize_calls k e w) as Hk.
    destruct (await_recognize k e audio_data w) as [[x|r] w1]; simpl in Hk.
    + destruct (is_exception (exc_class x)) eqn:Hx.
      * destruct (IH w1) as (n & Hn & Hcalls & Hres).
        exists (S n). simpl. rewrite Hcalls, Hk, <- app_assoc.
        split; [lia|]. split; [reflexivity|].
        destruct (fst (first_success_or rest audio_data (raise all_engines_failed) w1))
          as [y|r]; [|lia].
        destruct (is_exception (exc_class y)); lia.
      * exists 1. simpl. rewrite Hx. split; [lia|]. split; [exact Hk | lia].
    + exists 1. simpl. split; [lia|]. split; [exact Hk | lia].
Qed.

(** The attempt that ends a call fixes its outcome, unless it fails with
    an [Exception]; the candidates after it are not asked. *)
Lemma first_success_decided (cands : EngineDict) (w w' : World P)
    (outcome : PyExc + RecognitionResult) :
  decided_by cands audio_data w outcome w' ->
  match outcome with
  | inl x => is_exception (exc_class x) = false
  | inr _ => True
  end ->
  first_success cands audio_data w = (outcome, w').
Proof.
  intros (pre & k & e & post & w1 & -> & Hpre & Hk) Hout. unfold first_success.
  erewrite first_success_or_after_failures by eassumption. simpl.
  destruct outcome as [x|r].
  - now apply try_of_escape.
  - now apply try_of_inr.
Qed.

Lemma decided_by_calls (cands : EngineDict) (w w' : World P)
    (outcome : PyExc + RecognitionResult) :
  decided_by cands audio_data w outcome w' ->
  exists pre k post,
    keys cands = pre ++ k :: post /\ recognize_calls w' = recognize_calls w ++ pre ++ [k].
Proof.
  intros (pre & k & e & post & w1 & -> & Hpre & Hk).
  exists (keys pre), k, (keys post). split.
  - unfold keys. now rewrite map_app.
  - pose proof (await_recognize_calls k e w1) as Hc. rewrite Hk in Hc. simpl in Hc.
    rewrite Hc, (all_fail_calls _ _ Hpre), <- app_assoc. reflexivity.
Qed.

Lemma keys_configured_candidate (which : option RecognitionBackend) (d : EngineDict) :
  keys (configured_candidate which d)
  = match which with
    | Some k => if dict_mem k d then [k] else []
    | None => []
    end.
Proof.
  unfold configured_candidate, dict_mem. destruct which as [k|]; [|reflexivity].
  destruct (dict_get k d); reflexivity.
Qed.

Lemma keys_filter (g : RecognitionBackend -> bool) (d : EngineDict) :
  keys (filter (fun kv => g (fst kv)) d) = filter g (keys d).
Proof.
  induction d as [|[k e] d IH]; simpl; [reflexivity|].
  destruct (g k); simpl; now rewrite IH.
Qed.

Lemma keys_app (a b : EngineDict) : keys (a ++ b) = keys a ++ keys b.
Proof. apply map_app. Qed.

Lemma keys_attempt_order (self : MultiEngine) :
  keys (attempt_order self)
  = match primary self with
    | Some p => if dict_mem p (engines self) then [p] else []
    | None => []
    end
    ++ match fallback self with
       | Some b => if dict_mem b (engines self) then [b] else []
       | None => []
       end
    ++ filter (fun k => negb (in_pair k (primary self) (fallback self)))
              (keys (engines self)).
Proof.
  unfold attempt_order. rewrite !keys_app, !keys_configured_candidate.
  rewrite (keys_filter (fun k => negb (in_pair k (primary self) (fallback self)))).
  reflexivity.
Qed.

(** Every registered backend is a candidate, and only registered ones are. *)
Lemma attempt_order_covers (self : MultiEngine) (k : RecognitionBackend) :
  In k (keys (attempt_order self)) <-> In k (keys (engines self)).
Proof.
  rewrite keys_attempt_order, !in_app_iff, filter_In. split.
  - intros [H | [H | [H _]]]; [| |exact H].
    + destruct (primary self) as [p|]; [|destruct H].
      destruct (dict_mem p (engines self)) eqn:E; [|destruct H].
      destruct H as [<-|[]]. apply dict_get_in_keys. unfold dict_mem in E.
      destruct (dict_get p (engines self)) as [v|]; [now exists v|discriminate E].
    + destruct (fallback self) as [p|]; [|destruct H].
      destruct (dict_mem p (engines self)) eqn:E; [|destruct H].
      destruct H as [<-|[]]. apply dict_get_in_keys. unfold dict_mem in E.
      destruct (dict_get p (engines self)) as [v|]; [now exists v|discriminate E].
  - intro H. destruct (in_pair k (primary self) (fallback self)) eqn:E.
    + apply in_pair_spec in E. apply dict_get_in_keys in H. destruct H as [v Hv].
      destruct E as [E|E]; rewrite E; unfold dict_mem; rewrite Hv; simpl; auto.
    + right. right. auto.
Qed.

End Attempts.

(** ** Claims about [recognize_with_fallback] *)

(** C1, evaluated where it fails.  ElevenLabs is the primary and Google the
    fallback, both registered.  The attempt on ElevenLabs is cancelled: what
    it raises is not an [Exception], so [except Exception] does not catch
    it.  It reaches the caller, and Google, which would have answered, is
    never asked. *)
Lemma cancelled_primary_reaches_caller :
  keys (attempt_order Demo.two_engines) = [ELEVENLABS; GOOGLE]
  /\ fst (recognize_with_fallback Demo.two_engines Demo.silence Demo.primary_cancelled)
     = inl (mkExc CancelledError "" None)
  /\ recognize_calls
       (snd (recognize_with_fallback Demo.two_engines Demo.silence Demo.primary_cancelled))
     = [ELEVENLABS]
  /\ exists r w',
       await_recognize GOOGLE (Demo.an_engine GoogleEngine) Demo.silence
         (snd (recognize_with_fallback Demo.two_engines Demo.silence Demo.primary_cancelled))
       = (inr r, w')
       /\ text r = "open the pod bay doors".
Proof.
  split; [vm_compute; reflexivity|].
  split; [vm_compute; reflexivity|].
  split; [vm_compute; reflexivity|].
  eexists. eexists. split; vm_compute; reflexivity.
Qed.

(** C1 (as amended).  For every mapping, configuration and audio: when the
    candidates that precede [k] in the attempt order all fail with
    exceptions that derive from [Exception], those are caught and [k] is
    attempted.  If the attempt on [k] succeeds with [r], the call returns
    [r]; if it raises what does not derive from [Exception], that very
    exception reaches the caller.  Either way the candidates after [k] are
    not asked. *)
Theorem recognize_with_fallback_first_outcome
    (P : Platform) (self : MultiEngine) (audio_data : AudioInput)
    (pre post : EngineDict) (k : RecognitionBackend) (engine : SpeechEngine)
    (w w1 w2 : World P) (outcome : PyExc + RecognitionResult) :
  attempt_order self = pre ++ (k, engine) :: post ->
  all_fail pre audio_data w = Some w1 ->
  await_recognize k engine audio_data w1 = (outcome, w2) ->
  (forall r, outcome = inr r ->
     recognize_with_fallback self audio_data w = (inr r, w2))
  /\ (forall e, outcome = inl e -> is_exception (exc_class e) = false ->
        recognize_with_fallback self audio_data w = (inl e, w2))
  /\ recognize_calls w2 = recognize_calls w ++ keys pre ++ [k].
Proof.
  intros Horder Hpre Hk.
  assert (Hd : decided_by (attempt_order self) audio_data w outcome w2).
  { exists pre, k, engine, post, w1. now repeat split. }
  split; [|split].
  - intros r ->. rewrite recognize_with_fallback_refines.
    now apply first_success_decided.
  - intros e -> He. rewrite recognize_with_fallback_refines.
    now apply first_success_decided.
  - pose proof (await_recognize_calls audio_data k engine w1) as Hc.
    rewrite Hk in Hc. simpl in Hc.
    rewrite Hc, (all_fail_calls _ _ _ Hpre), <- app_assoc. reflexivity.
Qed.

(** C1, at the specification's example: the primary (ElevenLabs) fails, the
    fallback (Google) succeeds, and the caller gets Google's result. *)
Lemma recognize_with_fallback_first_outcome_witness :
  recognize_with_fallback Demo.two_engines Demo.silence Demo.primary_down
  = (inr (mkResult "open the pod bay doors" 0.90 GOOGLE 0
                   [("service", JStr "google_speech_recognition")]),
     mkWorld Demo.platform Demo.no_env true None [ELEVENLABS; GOOGLE]
             (Demo.disk_full Demo.quiet)).
Proof.
  refine (proj1 (@recognize_with_fallback_first_outcome Demo.platform Demo.two_engines
              Demo.silence [(ELEVENLABS, Demo.an_engine ElevenLabsEngine)] []
              GOOGLE (Demo.an_engine GoogleEngine)
              Demo.primary_down
              (mkWorld Demo.platform Demo.no_env true None [ELEVENLABS]
                       (Demo.disk_full (Demo.with_google [inr "open the pod bay doors"]
                                                         Demo.quiet)))
              _ _ _ _ _) _ eq_refl).
  - vm_compute; reflexivity.
  - vm_compute; reflexivity.
  - vm_compute; reflexivity.
Defined.

(** With the same backend configured as primary and as fallback, a failed
    primary attempt is followed by a second attempt on the same backend,
    whatever the collaborators do. *)
Lemma fallback_phase_repeats_primary
    (P : Platform) (self : MultiEngine) (audio_data : AudioInput)
    (k : RecognitionBackend) (engine : SpeechEngine) (w w1 : World P) (x : PyExc) :
  primary self = Some k ->
  fallback self = Some k ->
  dict_get k (engines self) = Some engine ->
  await_recognize k engine audio_data w = (inl x, w1) ->
  is_exception (exc_class x) = true ->
  exists more,
    recognize_calls (snd (recognize_with_fallback self audio_data w))
    = recognize_calls w ++ k :: k :: more.
Proof.
  intros Hp Hf Hget Hfail Hx.
  rewrite recognize_with_fallback_refines. unfold first_success, attempt_order.
  rewrite Hp, Hf. unfold configured_candidate. rewrite Hget. simpl.
  erewrite try_of_inl by eassumption.
  pose proof (await_recognize_calls audio_data k engine w) as Hc1.
  rewrite Hfail in Hc1. simpl in Hc1.
  unfold try_except, try_clauses.
  pose proof (await_recognize_calls audio_data k engine w1) as Hc2.
  destruct (await_recognize k engine audio_data w1) as [[y|r] w2]; simpl in Hc2.
  - destruct (is_exception (exc_class y)).
    + match goal with |- context [first_success_or ?c _ _ w2] =>
        destruct (first_success_calls audio_data c w2) as (n & _ & Hc3 & _);
        exists (keys (firstn n c))
      end.
      unfold first_success in Hc3. rewrite Hc3, Hc2, Hc1, <- !app_assoc. reflexivity.
    + exists []. simpl. rewrite Hc2, Hc1, <- app_assoc. reflexivity.
  - exists []. simpl. rewrite Hc2, Hc1, <- app_assoc. reflexivity.
Qed.

(** C2, evaluated where it fails.  With the primary and the fallback both
    set to Google and Google failing, [recognize] is awaited on Google twice
    in one call: the fallback phase does not check that the fallback differs
    from the primary.  The same happens end to end, from the environment
    [VOICE_BACKEND=google] through [MultiEngine()] and [transcribe_once]. *)
Theorem same_primary_and_fallback_attempted_twice :
  primary Demo.google_twice = fallback Demo.google_twice
  /\ recognize_calls
       (snd (recognize_with_fallback Demo.google_twice Demo.silence (Demo.mumbling Demo.no_env)))
     = [GOOGLE; GOOGLE]
  /\ recognize_calls
       (snd (transcribe_once (NInt 5) None (Demo.mumbling Demo.env_google_primary)))
     = [GOOGLE; GOOGLE].
Proof. repeat split; vm_compute; reflexivity. Qed.

(** C3, evaluated where it fails.  Google is first in line and ElevenLabs
    is the fallback, both registered.  A [KeyboardInterrupt] arrives while
    Google is asked.  The call raises, although ElevenLabs has not failed: it
    was never asked, and would have answered.  What is raised is the
    interrupt itself, not the terminal error. *)
Lemma interrupt_is_raised_without_all_failing :
  keys (engines Demo.google_first) = [ELEVENLABS; GOOGLE]
  /\ fst (recognize_with_fallback Demo.google_first Demo.silence Demo.interrupted)
     = inl (mkExc KeyboardInterrupt "" None)
  /\ mkExc KeyboardInterrupt "" None <> mkExc Exception_ "All recognition engines failed" None
  /\ recognize_calls
       (snd (recognize_with_fallback Demo.google_first Demo.silence Demo.interrupted))
     = [GOOGLE]
  /\ exists r w',
       await_recognize ELEVENLABS (Demo.an_engine ElevenLabsEngine) Demo.silence
         (snd (recognize_with_fallback Demo.google_first Demo.silence Demo.interrupted))
       = (inr r, w').
Proof.
  split; [vm_compute; reflexivity|].
  split; [vm_compute; reflexivity|].
  split; [discriminate|].
  split; [vm_compute; reflexivity|].
  eexists. eexists. vm_compute; reflexivity.
Qed.

(** C3 (as amended).  [recognize_with_fallback] raises in exactly two
    cases.  Either every attempt on its candidates fails with an exception
    deriving from [Exception]: then, and only then, what it raises is the one
    constant [Exception("All recognition engines failed")], with no
    [__context__]: it names no backend and chains none of their errors.  Or
    an attempt, after those before it failed in that way, raises what does
    not derive from [Exception]: then that exception itself is raised, and
    nothing else that is raised fails to derive from [Exception].  The
    candidates are exactly the registered backends, so in particular the
    terminal error is raised when none is registered. *)
Theorem recognize_with_fallback_raises_iff
    (P : Platform) (self : MultiEngine) (audio_data : AudioInput) (w : World P) :
  ((exists w', all_fail (attempt_order self) audio_data w = Some w')
   <-> fst (recognize_with_fallback self audio_data w)
       = inl (mkExc Exception_ "All recognition engines failed" None))
  /\ (forall e w', is_exception (exc_class e) = false ->
        (decided_by (attempt_order self) audio_data w (inl e) w'
         <-> recognize_with_fallback self audio_data w = (inl e, w')))
  /\ (forall e, fst (recognize_with_fallback self audio_data w) = inl e ->
        is_exception (exc_class e) = true ->
        e = mkExc Exception_ "All recognition engines failed" None)
  /\ (forall k, In k (keys (attempt_order self)) <-> In k (keys (engines self)))
  /\ (engines self = [] ->
        fst (recognize_with_fallback self audio_data w)
        = inl (mkExc Exception_ "All recognition engines failed" None)).
Proof.
  rewrite recognize_with_fallback_refines.
  split; [|split; [|split; [|split]]].
  - destruct (first_success_cases audio_data (attempt_order self) w)
      as [(w' & Hall & Hres) | [(Hnone & r & w' & Hres & _) | (Hnone & x & w' & Hres & Hx & _)]];
      rewrite Hres; simpl.
    + split; [reflexivity | intros _; now exists w'].
    + split; [intros [w'' Hw]; rewrite Hnone in Hw; discriminate Hw | discriminate].
    + split; [intros [w'' Hw]; rewrite Hnone in Hw; discriminate Hw|].
      intro H. injection H as ->. discriminate Hx.
  - intros e w' He. split.
    + intro Hd. now apply first_success_decided.
    + intro Hres.
      destruct (first_success_cases audio_data (attempt_order self) w)
        as [(w1 & _ & Hres') | [(_ & r & w1 & Hres' & _) | (_ & x & w1 & Hres' & _ & Hd)]];
        rewrite Hres' in Hres.
      * injection Hres as <- _. discriminate He.
      * discriminate Hres.
      * injection Hres as <- <-. exact Hd.
  - intros e Hres He.
    destruct (first_success_cases audio_data (attempt_order self) w)
      as [(w1 & _ & Hres') | [(_ & r & w1 & Hres' & _) | (_ & x & w1 & Hres' & Hx & _)]];
      rewrite Hres' in Hres; simpl in Hres.
    + now injection Hres as <-.
    + discriminate Hres.
    + injection Hres as <-. rewrite Hx in He. discriminate He.
  - apply attempt_order_covers.
  - intro Hempty. unfold first_success, attempt_order, configured_candidate.
    rewrite Hempty. simpl. destruct (primary self), (fallback self); reflexivity.
Qed.

(** C3 (as amended) on a run: Google is the only backend, it fails with an
    [Exception] each time it is asked, and the terminal error is raised. *)
Lemma recognize_with_fallback_raises_iff_witness :
  fst (recognize_with_fallback Demo.google_twice Demo.silence (Demo.mumbling Demo.no_env))
  = inl (mkExc Exception_ "All recognition engines failed" None).
Proof.
  apply (proj1 (proj1 (recognize_with_fallback_raises_iff
                         Demo.google_twice Demo.silence (Demo.mumbling Demo.no_env)))).
  exists (snd (recognize_with_fallback Demo.google_twice Demo.silence
                 (Demo.mumbling Demo.no_env))).
  vm_compute; reflexivity.
Defined.

(** C4. The backends on which a call awaits [recognize] are, in order, a
    prefix of: the primary if set and in the mapping; the fallback if set
    and in the mapping; then the mapping's keys in iteration order without
    those equal to the primary or the fallback.  The prefix is the whole
    list when the call raises an [Exception], and is not empty when it
    returns or raises something else. *)
Theorem recognize_with_fallback_attempt_order
    (P : Platform) (self : MultiEngine) (audio_data : AudioInput) (w : World P) :
  let order :=
    match primary self with
    | Some p => if dict_mem p (engines self) then [p] else []
    | None => []
    end
    ++ match fallback self with
       | Some b => if dict_mem b (engines self) then [b] else []
       | None => []
       end
    ++ filter (fun k => negb (in_pair k (primary self) (fallback self)))
              (keys (engines self)) in
  exists n,
    recognize_calls (snd (recognize_with_fallback self audio_data w))
    = recognize_calls w ++ firstn n order
    /\ n <= List.length order
    /\ match fst (recognize_with_fallback self audio_data w) with
       | inl e => if is_exception (exc_class e) then n = List.length order else 0 < n
       | inr _ => 0 < n
       end.
Proof.
  intro order. rewrite recognize_with_fallback_refines.
  destruct (first_success_calls audio_data (attempt_order self) w) as (n & Hn & Hcalls & Hres).
  assert (Hkeys : keys (attempt_order self) = order) by apply keys_attempt_order.
  assert (Hlen : List.length order = List.length (attempt_order self)).
  { rewrite <- Hkeys. unfold keys. now rewrite length_map. }
  exists n. rewrite Hcalls, Hlen. repeat split; [|exact Hn|exact Hres].
  f_equal. rewrite <- Hkeys. unfold keys. now rewrite firstn_map.
Qed.

(** ** More frame lemmas: the coordinator and the singleton *)

#[export] Hint Resolve keeps_recognize keeps_SpeechEngine_init keeps_build_engines
  keeps_MultiEngine_init keeps_with_microphone keeps_get_microphone
  keeps_enumerate_microphones keeps_list_available_microphones
  keeps_MultiEngine_test_microphone keeps_find_default : frame.
#[export] Hint Extern 0 (_ = _) => reflexivity : frame.

Section FrameCoordinator.

Variable P : Platform.
Variable X : Type.
Variable f : World P -> X.
Hypothesis f_ext :
  forall w s, f (mkWorld P (environ w) (SPEECH_COMPONENTS_AVAILABLE w) (_speech_engine w)
                         (recognize_calls w) s) = f w.
(** [f] does not look at the record of [recognize] calls. *)
Hypothesis f_calls :
  forall w c, f (mkWorld P (environ w) (SPEECH_COMPONENTS_AVAILABLE w) (_speech_engine w)
                         c (ext_state w)) = f w.

Lemma keeps_await_recognize k e a : keeps f (await_recognize k e a).
Proof.
  unfold await_recognize. apply keeps_bind; [|frame].
  intro w. apply f_calls.
Qed.

Lemma keeps_attempt k e a : keeps f (attempt k e a).
Proof. pose proof keeps_await_recognize. unfold attempt. frame. Qed.

Lemma keeps_attempt_configured which self a : keeps f (attempt_configured which self a).
Proof. pose proof keeps_attempt. unfold attempt_configured. frame. Qed.

Lemma keeps_attempt_remaining self items a : keeps f (attempt_remaining self items a).
Proof.
  pose proof keeps_attempt.
  induction items as [|[k e] rest IH]; simpl; frame.
Qed.

Lemma keeps_recognize_with_fallback self a : keeps f (recognize_with_fallback self a).
Proof.
  pose proof keeps_attempt_configured. pose proof keeps_attempt_remaining.
  unfold recognize_with_fallback. frame.
Qed.

Lemma keeps_transcribe self b a : keeps f (transcribe self b a).
Proof.
  pose proof keeps_await_recognize. pose proof keeps_recognize_with_fallback.
  unfold transcribe. frame.
Qed.

End FrameCoordinator.

Section FrameSingleton.

Variable P : Platform.
Variable X : Type.
Variable f : World P -> X.
Hypothesis f_ext :
  forall w s, f (mkWorld P (environ w) (SPEECH_COMPONENTS_AVAILABLE w) (_speech_engine w)
                         (recognize_calls w) s) = f w.
(** [f] does not look at the singleton. *)
Hypothesis f_global :
  forall w g, f (mkWorld P (environ w) (SPEECH_COMPONENTS_AVAILABLE w) g
                         (recognize_calls w) (ext_state w)) = f w.

Lemma keeps_set_global g : keeps f (set_global g).
Proof. intro w. apply f_global. Qed.

Lemma keeps_store_first_threshold th : keeps f (store_first_threshold th).
Proof. pose proof keeps_set_global. unfold store_first_threshold. frame. Qed.

Lemma keeps_calibrate_microphone self d : keeps f (calibrate_microphone self d).
Proof.
  pose proof keeps_store_first_threshold.
  unfold calibrate_microphone, with_microphone. frame.
Qed.




End FrameSingleton.

(** ** What the constructor builds *)

Ltac inv_bind H :=
  let a := fresh "a" in
  let w1 := fresh "w" in
  let H1 := fresh "H" in
  apply bind_inr_inv in H; destruct H as (a & w1 & H1 & H).

Lemma keys_dict_set {V : Type} (k0 : RecognitionBackend) (v : V)
    (d : list (RecognitionBackend * V)) (k : RecognitionBackend) :
  In k (keys (dict_set k0 v d)) -> k = k0 \/ In k (keys d).
Proof.
  induction d as [|[k' v'] d IH]; simpl.
  - intros [H|[]]. now left.
  - destruct (backend_eqb k' k0) eqn:E; simpl.
    + intros [H|H]; [now left | right; now right].
    + intros [H|H]; [right; now left|].
      destruct (IH H) as [H'|H']; [now left | right; now right].
Qed.

Lemma keys_filter_subset (g : RecognitionBackend * SpeechEngine -> bool) (d : EngineDict)
    (k : RecognitionBackend) :
  In k (keys (filter g d)) -> In k (keys d).
Proof.
  unfold keys. rewrite !in_map_iff. intros ([k' e] & Hk & Hin).
  apply filter_In in Hin. exists (k', e). tauto.
Qed.

Section Construction.

Variable P : Platform.

(** The mapping [MultiEngine()] builds holds available engines only, under
    keys taken from ELEVENLABS, GOOGLE and WHISPER. *)
Lemma build_engines_post (w w' : World P) (d : EngineDict) :
  build_engines w = (inr d, w') ->
  Forall (fun kv => available (snd kv) = true) d
  /\ forall k, In k (keys d) -> k = ELEVENLABS \/ k = GOOGLE \/ k = WHISPER.
Proof.
  unfold build_engines. intro H.
  inv_bind H. inv_bind H. inv_bind H. inv_bind H.
  unfold ret in H. injection H as <- <-. split.
  - apply Forall_forall. intros kv Hin. apply filter_In in Hin. tauto.
  - intros k Hk. apply keys_filter_subset in Hk.
    apply keys_dict_set in Hk. destruct Hk as [->|Hk]; [tauto|].
    apply keys_dict_set in Hk. destruct Hk as [->|Hk]; [tauto|].
    destruct (truthy a).
    + inv_bind H1. unfold ret in H1. injection H1 as <- <-.
      simpl in Hk. destruct Hk as [<-|[]]. tauto.
    + unfold ret in H1. injection H1 as <- <-. destruct Hk.
Qed.

(** [x if x in values else None] never raises: it is the lookup by value. *)
Lemma backend_if_member_total (name : string) (w : World P) :
  backend_if_member name w = (inr (backend_of_value name), w).
Proof.
  unfold backend_if_member, backend_of_value, all_backends.
  cbn [map existsb find value]. rewrite !(String.eqb_sym name).
  destruct (String.eqb "elevenlabs" name); [reflexivity|].
  destruct (String.eqb "google" name); [reflexivity|].
  destruct (String.eqb "whisper" name); [reflexivity|].
  destruct (String.eqb "openai" name); reflexivity.
Qed.

Lemma backend_of_value_non_member (name : string) :
  ~ In name (map value all_backends) -> backend_of_value name = None.
Proof.
  intro H. unfold backend_of_value, all_backends in *.
  cbn [map In find value] in *.
  destruct (String.eqb_spec "elevenlabs" name); [tauto|].
  destruct (String.eqb_spec "google" name); [tauto|].
  destruct (String.eqb_spec "whisper" name); [tauto|].
  destruct (String.eqb_spec "openai" name); [tauto|].
  reflexivity.
Qed.

Lemma backend_of_value_some (name : string) (b : RecognitionBackend) :
  backend_of_value name = Some b <-> value b = name.
Proof.
  unfold backend_of_value, all_backends. cbn [find value].
  destruct (String.eqb_spec "elevenlabs" name);
    [split; [intro H; injection H as <-; assumption | intro H; f_equal; apply value_injective; simpl; congruence]|].
  destruct (String.eqb_spec "google" name);
    [split; [intro H; injection H as <-; assumption | intro H; f_equal; apply value_injective; simpl; congruence]|].
  destruct (String.eqb_spec "whisper" name);
    [split; [intro H; injection H as <-; assumption | intro H; f_equal; apply value_injective; simpl; congruence]|].
  destruct (String.eqb_spec "openai" name);
    [split; [intro H; injection H as <-; assumption | intro H; f_equal; apply value_injective; simpl; congruence]|].
  split; [discriminate|]. destruct b; simpl; intro; congruence.
Qed.

(** [MultiEngine()] raises exactly when building the engines raises; the
    two names only select the [primary] and [fallback] fields. *)
Lemma MultiEngine_init_spec (w : World P) :
  MultiEngine_init w
  = match build_engines w with
    | (inl e, w') => (inl e, w')
    | (inr d, w') =>
        (inr (mkMultiEngine d
                (backend_of_value (configured_name w "VOICE_BACKEND" "elevenlabs"))
                (backend_of_value (configured_name w "VOICE_FALLBACK" "google"))),
         w')
    end.
Proof.
  unfold MultiEngine_init, bind at 1.
  pose proof (@keeps_build_engines P _ (@environ P) (fun _ _ => eq_refl) w) as Henv.
  destruct (build_engines w) as [[e|d] w']; [reflexivity|]. simpl in Henv.
  unfold getenv_default, getenv, bind, ret. rewrite !backend_if_member_total.
  unfold configured_name. rewrite Henv. reflexivity.
Qed.

Lemma MultiEngine_init_post (w w' : World P) (me : MultiEngine) :
  MultiEngine_init w = (inr me, w') ->
  Forall (fun kv => available (snd kv) = true) (engines me)
  /\ forall k, In k (keys (engines me)) -> k = ELEVENLABS \/ k = GOOGLE \/ k = WHISPER.
Proof.
  rewrite MultiEngine_init_spec.
  destruct (build_engines w) as [[e|d] w1] eqn:E; [discriminate|].
  intro H. injection H as <- <-. simpl. eapply build_engines_post. exact E.
Qed.

(** [WhisperEngine()] is called without a [config]; once [import whisper]
    has succeeded, [config.get] is applied to [None], and the
    [AttributeError] is not an [ImportError]: construction fails. *)
Lemma WhisperEngine_init_without_config (w w1 w2 : World P) (self : SpeechEngine) :
  SpeechEngine_init WhisperEngine None w = (inr self, w1) ->
  ext ImportWhisper w1 = (inr tt, w2) ->
  WhisperEngine_init None w
  = (inl (mkExc AttributeError "'NoneType' object has no attribute 'get'" None), w2).
Proof.
  intros Hbase Himport. unfold WhisperEngine_init.
  erewrite bind_of_inr by exact Hbase.
  unfold except_ImportError, try_clauses.
  erewrite bind_of_inr by exact Himport. reflexivity.
Qed.

End Construction.

(** ** Invariants of the module's singleton *)

Section Singleton.

Variable P : Platform.
Variable I : option MultiEngine -> Prop.

(** [I] holds of whatever the constructor returns ... *)
Hypothesis I_init :
  forall (w w' : World P) me, MultiEngine_init w = (inr me, w') -> I (Some me).
(** ... and does not depend on the first engine's energy threshold. *)
Hypothesis I_threshold :
  forall k e rest p f th,
    I (Some (mkMultiEngine ((k, e) :: rest) p f)) ->
    I (Some (mkMultiEngine ((k, with_energy_threshold e th) :: rest) p f)).

Lemma maintains_of_keeps {A : Type} (m : M P A) :
  keeps (@_speech_engine P) m -> maintains I m.
Proof. intros H w Hw. now rewrite H. Qed.

Lemma maintains_bind {A B : Type} (m : M P A) (k : A -> M P B) :
  maintains I m -> (forall a, maintains I (k a)) -> maintains I (bind m k).
Proof.
  intros Hm Hk w Hw. unfold bind. specialize (Hm w Hw).
  destruct (m w) as [[e|a] w1]; simpl in *; [exact Hm|]. now apply Hk.
Qed.

Lemma maintains_clauses {A : Type} (m : M P A) (h : PyExc -> M P A) :
  maintains I m -> (forall e, maintains I (h e)) -> maintains I (try_clauses m h).
Proof.
  intros Hm Hh w Hw. unfold try_clauses. specialize (Hm w Hw).
  destruct (m w) as [[e|a] w1]; simpl in *; [|exact Hm]. now apply Hh.
Qed.

Lemma maintains_try {A : Type} (m : M P A) (h : PyExc -> M P A) :
  maintains I m -> (forall e, maintains I (h e)) -> maintains I (try_except m h).
Proof.
  intros Hm Hh. unfold try_except. apply maintains_clauses; [exact Hm|].
  intro e. destruct (is_exception (exc_class e)); [apply Hh|].
  intros w Hw. exact Hw.
Qed.

Lemma maintains_finally {A : Type} (m : M P A) (c : M P unit) :
  maintains I m -> maintains I c -> maintains I (finally_ m c).
Proof.
  intros Hm Hc w Hw. unfold finally_. specialize (Hm w Hw).
  destruct (m w) as [r w1]. specialize (Hc w1 Hm).
  destruct (c w1) as [[e|u] w2]; exact Hc.
Qed.

Lemma get_speech_engine_global (w w1 : World P) (engine : MultiEngine) :
  get_speech_engine w = (inr engine, w1) -> _speech_engine w1 = Some engine.
Proof.
  unfold get_speech_engine, bind at 1, get_global.
  destruct (_speech_engine w) as [me|] eqn:E.
  - unfold ret. intro H. injection H as <- <-. exact E.
  - unfold components_available, bind at 1.
    destruct (negb (SPEECH_COMPONENTS_AVAILABLE w)); [discriminate|].
    intro H. inv_bind H. inv_bind H. unfold ret in H. injection H as <- <-.
    match goal with
    | Hs : set_global _ _ = _ |- _ =>
        unfold set_global in Hs; injection Hs as _ Hs; subst
    end.
    reflexivity.
Qed.

Lemma maintains_get_speech_engine : maintains I (@get_speech_engine P).
Proof.
  intros w Hw. unfold get_speech_engine, bind at 1, get_global.
  destruct (_speech_engine w) as [me|] eqn:E; simpl; [now rewrite E|].
  unfold components_available, bind at 1.
  destruct (negb (SPEECH_COMPONENTS_AVAILABLE w)); simpl; [now rewrite E|].
  unfold bind at 1.
  pose proof (@keeps_MultiEngine_init P _ (@_speech_engine P) (fun _ _ => eq_refl) w) as Hk.
  destruct (MultiEngine_init w) as [[e|me] w1] eqn:Hinit; simpl in *.
  - rewrite Hk, E. exact Hw.
  - eapply I_init. exact Hinit.
Qed.

Lemma get_speech_engine_post (w w1 : World P) (engine : MultiEngine) :
  I (_speech_engine w) -> get_speech_engine w = (inr engine, w1) -> I (Some engine).
Proof.
  intros Hw H. pose proof (maintains_get_speech_engine w Hw) as Hm.
  rewrite H in Hm. simpl in Hm. now rewrite (get_speech_engine_global _ H) in Hm.
Qed.

Lemma maintains_store_first_threshold (th : Num) :
  maintains I (@store_first_threshold P th).
Proof.
  intros w Hw. unfold store_first_threshold, bind, get_global.
  destruct (_speech_engine w) as [[[|[k e] rest] p f]|] eqn:E; simpl; rewrite ?E; auto.
Qed.

Lemma maintains_calibrate_microphone (self : MultiEngine) (d : Num) :
  maintains I (@calibrate_microphone P self d).
Proof.
  unfold calibrate_microphone, with_microphone.
  destruct (engines self) as [|[k e] rest].
  - apply maintains_of_keeps. frame.
  - apply maintains_bind; [apply maintains_of_keeps; frame|]. intros ?.
    apply maintains_finally; [|apply maintains_of_keeps; frame].
    apply maintains_bind; [apply maintains_of_keeps; frame|]. intro th.
    apply maintains_store_first_threshold.
Qed.

Ltac maintain :=
  repeat first
    [ match goal with |- forall _, _ => intro end
    | match goal with
      | |- maintains _ get_speech_engine => apply maintains_get_speech_engine
      | |- maintains _ (calibrate_microphone _ _) => apply maintains_calibrate_microphone
      | |- maintains _ (bind _ _) => apply maintains_bind
      | |- maintains _ (try_except _ _) => apply maintains_try
      | |- maintains _ (try_clauses _ _) => apply maintains_clauses
      | |- maintains _ (match ?x with _ => _ end) => destruct x
      end
    | solve [apply maintains_of_keeps; frame] ].

Lemma keeps_global_transcribe (self : MultiEngine) (b : option string) (a : AudioData) :
  keeps (@_speech_engine P) (transcribe self b a).
Proof. apply keeps_transcribe; reflexivity. Qed.

Lemma keeps_global_capture (self : MultiEngine) (d : Num) :
  keeps (@_speech_engine P) (capture_audio self d).
Proof. unfold capture_audio, sr_name, with_microphone. frame. Qed.

Lemma keeps_global_sr_name : keeps (@_speech_engine P) sr_name.
Proof. unfold sr_name. frame. Qed.

Lemma maintains_run_tool (t : ToolCall) : maintains I (@run_tool P t).
Proof.
  pose proof keeps_global_transcribe. pose proof keeps_global_capture.
  pose proof keeps_global_sr_name.
  destruct t; simpl;
    unfold ping, test_microphone, test_microphone_body, transcribe_once,
      transcribe_once_body, transcribe_once_handlers, calibrate_audio,
      calibrate_audio_body, list_audio_devices, list_audio_devices_body,
      get_engine_status, get_engine_status_body, with_microphone;
    maintain.
Qed.

(** Whatever requests are served, [I] keeps holding of the singleton. *)
Lemma maintains_serve (requests : list ToolCall) :
  forall w : World P, I (_speech_engine w) -> I (_speech_engine (serve requests w)).
Proof.
  induction requests as [|t rest IH]; simpl; intros w Hw; [exact Hw|].
  apply IH. now apply maintains_run_tool.
Qed.

End Singleton.

(** ** Claims about the availability mapping *)

Lemma all_available_init (P : Platform) (w w' : World P) (me : MultiEngine) :
  MultiEngine_init w = (inr me, w') -> all_available (Some me).
Proof. intro H. simpl. eapply MultiEngine_init_post. exact H. Qed.

Lemma all_available_threshold k e rest p f th :
  all_available (Some (mkMultiEngine ((k, e) :: rest) p f)) ->
  all_available (Some (mkMultiEngine ((k, with_energy_threshold e th) :: rest) p f)).
Proof.
  simpl. intro H. inversion H; subst. constructor; assumption.
Qed.

Lemma no_openai_init (P : Platform) (w w' : World P) (me : MultiEngine) :
  MultiEngine_init w = (inr me, w') -> no_openai (Some me).
Proof.
  intros H Hin. apply MultiEngine_init_post in H.
  destruct (proj2 H _ Hin) as [E|[E|E]]; discriminate E.
Qed.

Lemma no_openai_threshold k e rest p f th :
  no_openai (Some (mkMultiEngine ((k, e) :: rest) p f)) ->
  no_openai (Some (mkMultiEngine ((k, with_energy_threshold e th) :: rest) p f)).
Proof. simpl. auto. Qed.

(** C7. Every engine of the mapping that [MultiEngine()] returns is
    available, and serving requests never changes that: whatever tools are
    called, in whatever order and against whatever collaborators, every
    engine in the singleton's mapping is available. *)
Theorem engines_in_mapping_stay_available (P : Platform) :
  (forall (w w' : World P) (me : MultiEngine),
      MultiEngine_init w = (inr me, w') ->
      Forall (fun kv => available (snd kv) = true) (engines me))
  /\ (forall (w : World P) (requests : list ToolCall),
        all_available (_speech_engine w) ->
        all_available (_speech_engine (serve requests w)))
  /\ (forall (w : World P) (requests : list ToolCall),
        _speech_engine w = None ->
        all_available (_speech_engine (serve requests w))).
Proof.
  assert (Hserve : forall (w : World P) (requests : list ToolCall),
             all_available (_speech_engine w) ->
             all_available (_speech_engine (serve requests w))).
  { intros w requests. apply maintains_serve.
    - apply all_available_init.
    - apply all_available_threshold. }
  repeat split.
  - intros w w' me H. eapply MultiEngine_init_post. exact H.
  - exact Hserve.
  - intros w requests Hnone. apply Hserve. now rewrite Hnone.
Qed.

(** C7 on a run: after four requests the singleton exists and all its
    engines are available. *)
Lemma engines_in_mapping_stay_available_witness :
  _speech_engine (serve Demo.requests (Demo.start Demo.no_env Demo.quiet)) <> None
  /\ all_available (_speech_engine (serve Demo.requests (Demo.start Demo.no_env Demo.quiet))).
Proof.
  split.
  - vm_compute. discriminate.
  - apply (proj1 (proj2 (engines_in_mapping_stay_available Demo.platform))).
    exact I.
Defined.

Lemma in_firstn {A : Type} (n : nat) (l : list A) (x : A) :
  In x (firstn n l) -> In x l.
Proof.
  revert l. induction n as [|n IH]; intros [|y l]; simpl; try tauto.
  intros [H|H]; [now left | right; now apply IH].
Qed.

Section Unregistered.

Variable P : Platform.

(** Asking [transcribe] for a backend by name when the mapping does not
    hold it raises "not available" without awaiting any [recognize]. *)
Lemma transcribe_unregistered (engine : MultiEngine) (name : string) (b : RecognitionBackend)
    (audio : AudioData) (w : World P) :
  name <> "" ->
  backend_of_value (str_lower P name) = Some b ->
  dict_get b (engines engine) = None ->
  transcribe engine (Some name) audio w
  = (inl (Exception ("Backend '" ++ name ++ "' not available")), w).
Proof.
  intros Hname Hb Hget. unfold transcribe, truthy.
  destruct (String.eqb_spec name ""); [contradiction|]. simpl.
  rewrite Hb, Hget. reflexivity.
Qed.

Lemma recognize_with_fallback_calls_registered (self : MultiEngine) (audio_data : AudioInput)
    (w : World P) :
  exists added,
    recognize_calls (snd (recognize_with_fallback self audio_data w))
    = recognize_calls w ++ added
    /\ forall k, In k added -> In k (keys (engines self)).
Proof.
  rewrite recognize_with_fallback_refines.
  destruct (first_success_calls audio_data (attempt_order self) w) as (n & _ & Hcalls & _).
  exists (keys (firstn n (attempt_order self))). split; [exact Hcalls|].
  intros k Hk. apply attempt_order_covers.
  unfold keys in *. rewrite in_map_iff in *. destruct Hk as (kv & Hkv & Hin).
  exists kv. split; [exact Hkv|]. eapply in_firstn. exact Hin.
Qed.

Lemma transcribe_once_handlers_payload (e : PyExc) (w : World P) (p : Payload) :
  fst (transcribe_once_handlers e w) = inr p -> jlookup "success" p = Some (JBool false).
Proof.
  unfold transcribe_once_handlers, bind, components_available.
  destruct (SPEECH_COMPONENTS_AVAILABLE w); simpl; [|discriminate].
  destruct (exc_class e); simpl; intro H; try discriminate H;
    injection H as <-; reflexivity.
Qed.

End Unregistered.

(** C9. The mapping [MultiEngine()] builds has its keys among ELEVENLABS,
    GOOGLE and WHISPER; serving requests never puts OPENAI_REALTIME into the
    singleton's mapping; [recognize_with_fallback] never awaits it; and a
    [transcribe_once] request that names it is never answered with
    success. *)
Theorem openai_realtime_never_registered (P : Platform) :
  (forall (w w' : World P) (me : MultiEngine),
      MultiEngine_init w = (inr me, w') ->
      ~ In OPENAI_REALTIME (keys (engines me))
      /\ forall k, In k (keys (engines me)) -> In k [ELEVENLABS; GOOGLE; WHISPER])
  /\ (forall (w : World P) (requests : list ToolCall),
        no_openai (_speech_engine w) ->
        no_openai (_speech_engine (serve requests w)))
  /\ (forall (self : MultiEngine) (audio_data : AudioInput) (w : World P),
        ~ In OPENAI_REALTIME (keys (engines self)) ->
        exists added,
          recognize_calls (snd (recognize_with_fallback self audio_data w))
          = recognize_calls w ++ added
          /\ ~ In OPENAI_REALTIME added)
  /\ (forall (w : World P) (duration : Num) (name : string) (p : Payload),
        no_openai (_speech_engine w) ->
        name <> "" ->
        str_lower P name = value OPENAI_REALTIME ->
        fst (transcribe_once duration (Some name) w) = inr p ->
        jlookup "success" p = Some (JBool false)).
Proof.
  repeat split.
  - now apply (@no_openai_init P w w' me).
  - intros k Hk. apply MultiEngine_init_post in H.
    destruct (proj2 H _ Hk) as [ -> | [ -> | -> ] ]; simpl; tauto.
  - intros w requests. apply maintains_serve.
    + apply no_openai_init.
    + apply no_openai_threshold.
  - intros self audio_data w Hno.
    destruct (recognize_with_fallback_calls_registered self audio_data w) as (added & Hc & Hin).
    exists added. split; [exact Hc|]. intro H. apply Hno. now apply Hin.
  - intros w duration name p Hno Hname Hlower.
    unfold transcribe_once, try_clauses.
    destruct (transcribe_once_body duration (Some name) w) as [[e|p0] w1] eqn:Hbody.
    + apply transcribe_once_handlers_payload.
    + exfalso. unfold transcribe_once_body in Hbody.
      inv_bind Hbody. inv_bind Hbody. inv_bind Hbody.
      match goal with
      | Hg : get_speech_engine _ = (inr ?me, _), Ht : transcribe _ _ _ _ = _ |- _ =>
          assert (Hme : no_openai (Some me))
            by (eapply get_speech_engine_post; [apply no_openai_init | exact Hno | exact Hg]);
          rewrite (@transcribe_unregistered P _ name OPENAI_REALTIME) in Ht;
          [discriminate Ht | exact Hname | | ]
      end.
      * apply backend_of_value_some. symmetry. exact Hlower.
      * match goal with
        | |- dict_get _ (engines ?me) = None =>
            destruct (dict_get OPENAI_REALTIME (engines me)) as [v|] eqn:E; [|reflexivity]
        end.
        exfalso. apply Hme. apply dict_get_in_keys. now exists v.
Qed.

(** C9 on a run: the request [transcribe_once(5, "openai")] is refused. *)
Lemma openai_realtime_never_registered_witness :
  jlookup "success"
    [("success", JBool false);
     ("error", JStr "Transcription failed: Backend 'openai' not available");
     ("text", JStr "")]
  = Some (JBool false).
Proof.
  apply (proj2 (proj2 (proj2 (openai_realtime_never_registered Demo.platform)))
           (Demo.start Demo.no_env Demo.quiet) (NInt 5) "openai").
  - exact I.
  - discriminate.
  - vm_compute; reflexivity.
  - vm_compute; reflexivity.
Defined.

(** ** Claims about backend names *)

(** C10 as stated fails: [VOICE_BACKEND=Google] is not the value of any
    member of the enumeration, yet the constructor does not set [primary]
    to [None]; the name is lower-cased first and selects GOOGLE. *)
Lemma mixed_case_name_selects_backend :
  ~ In "Google" (map value all_backends)
  /\ Demo.env_mixed_case "VOICE_BACKEND" = Some "Google"
  /\ exists me w',
       MultiEngine_init (Demo.start Demo.env_mixed_case Demo.quiet) = (inr me, w')
       /\ primary me = Some GOOGLE.
Proof.
  split; [|split].
  - simpl. intros [H|[H|[H|[H|[]]]]]; discriminate H.
  - reflexivity.
  - eexists. eexists. split; [vm_compute; reflexivity | reflexivity].
Qed.

(** C10, amended.  [MultiEngine()] raises only when building the engines
    raises, whatever the two names are.  A name whose lower-case form is not
    the value of a member leaves the field [None]; and with a [None] field
    [recognize_with_fallback] makes no attempt in that phase: it tries the
    other configured backend and then the remaining ones. *)
Theorem MultiEngine_init_unknown_backend_names (P : Platform) (w : World P) :
  let primary_name := configured_name w "VOICE_BACKEND" "elevenlabs" in
  let fallback_name := configured_name w "VOICE_FALLBACK" "google" in
  MultiEngine_init w
  = match build_engines w with
    | (inl e, w') => (inl e, w')
    | (inr d, w') =>
        (inr (mkMultiEngine d (backend_of_value primary_name)
                            (backend_of_value fallback_name)), w')
    end
  /\ (~ In primary_name (map value all_backends) -> backend_of_value primary_name = None)
  /\ (~ In fallback_name (map value all_backends) -> backend_of_value fallback_name = None)
  /\ (forall (self : MultiEngine) (audio_data : AudioInput) (w1 : World P),
        primary self = None ->
        recognize_with_fallback self audio_data w1
        = first_success
            (configured_candidate (fallback self) (engines self)
             ++ filter (fun kv => negb (in_pair (fst kv) None (fallback self))) (engines self))
            audio_data w1)
  /\ (forall (self : MultiEngine) (audio_data : AudioInput) (w1 : World P),
        fallback self = None ->
        recognize_with_fallback self audio_data w1
        = first_success
            (configured_candidate (primary self) (engines self)
             ++ filter (fun kv => negb (in_pair (fst kv) (primary self) None)) (engines self))
            audio_data w1).
Proof.
  intros primary_name fallback_name. repeat split.
  - apply MultiEngine_init_spec.
  - apply backend_of_value_non_member.
  - apply backend_of_value_non_member.
  - intros self audio_data w1 Hnone. rewrite recognize_with_fallback_refines.
    unfold attempt_order. rewrite Hnone. reflexivity.
  - intros self audio_data w1 Hnone. rewrite recognize_with_fallback_refines.
    unfold attempt_order. rewrite Hnone. reflexivity.
Qed.

(** C10 on a run: with [VOICE_BACKEND=azure] and [VOICE_FALLBACK=Bing
    Speech] the engine is built, with both fields [None]. *)
Lemma MultiEngine_init_unknown_backend_names_witness :
  exists me w',
    MultiEngine_init (Demo.start Demo.env_unknown_names Demo.quiet) = (inr me, w')
    /\ primary me = None /\ fallback me = None.
Proof.
  pose proof (MultiEngine_init_unknown_backend_names
                (Demo.start Demo.env_unknown_names Demo.quiet)) as H.
  cbv zeta in H. destruct H as (Hinit & Hp & Hf & _).
  exists (mkMultiEngine
            (match fst (build_engines (Demo.start Demo.env_unknown_names Demo.quiet)) with
             | inr d => d
             | inl _ => []
             end)
            (backend_of_value
               (configured_name (Demo.start Demo.env_unknown_names Demo.quiet)
                                "VOICE_BACKEND" "elevenlabs"))
            (backend_of_value
               (configured_name (Demo.start Demo.env_unknown_names Demo.quiet)
                                "VOICE_FALLBACK" "google"))).
  exists (snd (build_engines (Demo.start Demo.env_unknown_names Demo.quiet))).
  split; [rewrite Hinit; vm_compute; reflexivity|]. split.
  - apply Hp. vm_compute. intros [H|[H|[H|[H|[]]]]]; discriminate H.
  - apply Hf. vm_compute. intros [H|[H|[H|[H|[]]]]]; discriminate H.
Defined.

(** ** Claims about the tools *)

Section ToolFacts.

Variable P : Platform.





End ToolFacts.


(** Nor does a tool catch everything: when the task of a [transcribe_once]
    request is cancelled while ElevenLabs is asked, the [CancelledError]
    passes [except Exception] twice, in the coordinator and in the tool, and
    reaches the RPC layer. *)
Lemma cancelled_request_reaches_rpc_layer :
  fst (run_tool (TranscribeOnce (NInt 5) (Some "elevenlabs"))
         (mkWorld Demo.platform Demo.no_env true (Some Demo.two_engines) []
                  (Demo.cancel_tempfile Demo.quiet)))
  = inl (mkExc CancelledError "" None).
Proof. vm_compute; reflexivity. Qed.



(** C6. A payload of [get_engine_status] without an [error] field lists, as
    [available_engines], the values of exactly the keys of the singleton's
    mapping, in the mapping's order, and gives the values of the configured
    primary and fallback backends, or null. *)
Theorem get_engine_status_reflects_mapping
    (P : Platform) (w w' : World P) (p : Payload) :
  get_engine_status w = (inr p, w') ->
  jlookup "error" p = None ->
  exists me,
    _speech_engine w' = Some me
    /\ jlookup "available_engines" p
       = Some (JList (map (fun k => JStr (value k)) (keys (engines me))))
    /\ (forall k, In (JStr (value k)) (map (fun k => JStr (value k)) (keys (engines me)))
                  <-> In k (keys (engines me)))
    /\ jlookup "primary_engine" p
       = Some (match primary me with Some b => JStr (value b) | None => JNull end)
    /\ jlookup "fallback_engine" p
       = Some (match fallback me with Some b => JStr (value b) | None => JNull end).
Proof.
  unfold get_engine_status, try_except, try_clauses.
  destruct (get_engine_status_body w) as [[e|p0] w1] eqn:Hbody.
  - destruct (is_exception (exc_class e)); [|discriminate].
    unfold ret. intros H Herr. injection H as <- <-. discriminate Herr.
  - intros H _. injection H as <- <-.
    unfold get_engine_status_body in Hbody. inv_bind Hbody. inv_bind Hbody.
    unfold ret in Hbody. injection Hbody as <- <-.
    match goal with
    | Hg : get_speech_engine _ = (inr ?me, _), He : getenv _ _ = _ |- _ =>
        exists me; apply get_speech_engine_global in Hg;
        unfold getenv in He; injection He as _ <-
    end.
    repeat split; try assumption; try reflexivity.
    + intro Hin. apply in_map_iff in Hin. destruct Hin as (k' & Hk & Hin).
      injection Hk as Hk. apply value_injective in Hk. now subst.
    + intro Hin. apply in_map_iff. now exists k.
Qed.

(** C6 on a run: only Google is registered, and the status says so. *)
Lemma get_engine_status_reflects_mapping_witness :
  exists me,
    _speech_engine (snd (get_engine_status (Demo.start Demo.no_env Demo.quiet))) = Some me
    /\ keys (engines me) = [GOOGLE]
    /\ jlookup "available_engines"
         (match fst (get_engine_status (Demo.start Demo.no_env Demo.quiet)) with
          | inr p => p
          | inl _ => []
          end)
       = Some (JList [JStr "google"]).
Proof.
  destruct (@get_engine_status_reflects_mapping Demo.platform
              (Demo.start Demo.no_env Demo.quiet)
              (snd (get_engine_status (Demo.start Demo.no_env Demo.quiet)))
              (match fst (get_engine_status (Demo.start Demo.no_env Demo.quiet)) with
               | inr p => p
               | inl _ => []
               end))
    as (me & Hg & Hav & _).
  - vm_compute; reflexivity.
  - vm_compute; reflexivity.
  - assert (Hme : me = match _speech_engine
                               (snd (get_engine_status (Demo.start Demo.no_env Demo.quiet)))
                       with
                       | Some m => m
                       | None => me
                       end) by (rewrite Hg; reflexivity).
    exists me. split; [exact Hg|]. split.
    + rewrite Hme. vm_compute; reflexivity.
    + rewrite Hav, Hme. vm_compute; reflexivity.
Defined.



(* ===================================================================== *)
